(** * sonnixgres: a shallow embedding of [sonnixgres.py]

    The Python module is a thin layer over three collaborators: the process
    environment ([os.getenv]), the PostgreSQL driver (psycopg2 connections and
    cursors, and [pandas.read_sql] on top of them) and SQLAlchemy's schema
    reflection.  Each function of the module is transliterated below into a
    state-and-exception monad over a small, executable model of those
    collaborators; the theorems at the end are about these definitions. *)

From stdpp Require Import gmap strings list fin_maps.
From Stdlib Require Import ZArith Ascii String.

Local Open Scope string_scope.
Local Open Scope list_scope.

(** ** Python helpers *)

Module Py.

(** [sep.join(parts)] *)
Fixpoint join (sep : string) (parts : list string) : string :=
  match parts with
  | [] => ""
  | [p] => p
  | p :: rest => p +:+ sep +:+ join sep rest
  end.

(** [s.split(sep)] for a one-character separator: the result always has at
    least one element, and splitting the empty string gives the list that
    holds the empty string. *)
Fixpoint split (sep : Ascii.ascii) (s : string) : list string :=
  match s with
  | EmptyString => [EmptyString]
  | String ch s' =>
      if Ascii.eqb ch sep then EmptyString :: split sep s'
      else match split sep s' with
           | piece :: pieces => String ch piece :: pieces
           | [] => [String ch EmptyString]
           end
  end.

(** [d.get(key, default)] on a dict *)
Definition dict_get {V} (d : gmap string V) (key : string) (default : V) : V :=
  match d !! key with
  | Some v => v
  | None => default
  end.

(** [os.getenv(name)] and [os.getenv(name, default)]; the environment is a
    finite map from names to strings. *)
Definition getenv (environ : gmap string string) (name : string) : option string :=
  environ !! name.

Definition getenv_default (environ : gmap string string) (name default : string) : string :=
  dict_get environ name default.

End Py.

(** ** Exceptions

    [driver_error] stands for the exceptions raised inside the calls of
    the collaborators (psycopg2, pandas, SQLAlchemy): their own error
    classes and, for a value that psycopg2 cannot encode for the
    connection, the built-in [UnicodeEncodeError]; [exn] adds the one
    exception class the module itself defines, [ConnectionError]
    (line 119), and the [ValueError] of the built-in [int].  A [ConnectionError] is built from
    a message (lines 149, 232, 251) or from the caught error (line 140,
    [raise ConnectionError(error) from error]). *)

Inductive driver_error : Type :=
  | InterfaceError (msg : string)
  | OperationalError (msg : string)
  | ProgrammingError (msg : string)
  | SyntaxError (sql : string)
  | UndefinedTable (table_name : string)
  | UndefinedColumn (table_name column_name : string)
  | InFailedSqlTransaction
  | PandasDatabaseError (cause : driver_error)
  | ReflectionError (msg : string)
  | UnicodeEncodeError (text : string).

Inductive exn : Type :=
  | ConnectionError (arg : connection_error_arg)
  | DriverError (error : driver_error)
  | ValueError (msg : string)
with connection_error_arg : Type :=
  | Message (msg : string)
  | Wrapping (error : exn).

Inductive result (A : Type) : Type :=
  | Ok (a : A)
  | Raise (e : exn).
Arguments Ok {A} a.
Arguments Raise {A} e.

(** ** PostgresCredentials (lines 43-51) *)

Record PostgresCredentials : Type := {
  host : option string;
  database : option string;
  user : option string;
  password : option string;
  port : Z;
  schema : string;
  tables : list string
}.

Section Credentials.

(** The built-in [int] applied to a string: [None] is its [ValueError]. *)
Variable py_int : string -> option Z.

(** [int(os.getenv('DB_PORT', 5432))]: the default is already an integer,
    a configured value is parsed. *)
Definition env_port (environ : gmap string string) : result Z :=
  match Py.getenv environ "DB_PORT" with
  | None => Ok 5432%Z
  | Some s =>
      match py_int s with
      | Some n => Ok n
      | None => Raise (ValueError s)
      end
  end.

Definition PostgresCredentials_init (environ : gmap string string)
  : result PostgresCredentials :=
  match env_port environ with
  | Raise e => Raise e
  | Ok p =>
      Ok {| host := Py.getenv environ "DB_HOST";
            database := Py.getenv environ "DB_DATABASE";
            user := Py.getenv environ "DB_USER";
            password := Py.getenv environ "DB_PASSWORD";
            port := p;
            schema := Py.getenv_default environ "DB_SCHEMA" "";
            tables := Py.split ","%char (Py.getenv_default environ "DB_TABLES" "") |}
  end.

End Credentials.

(** ** MetadataCache rendering (lines 66-90) *)

(** A reflected column as the module reads it: [column.name],
    [str(column.type)] and [column.primary_key]. *)
Record Column : Type := {
  column_name : string;
  column_type : string;
  primary_key : bool
}.

Record TableObj : Type := {
  table_obj_name : string;
  table_obj_columns : list Column
}.

Definition sql_type_mapping_items : list (string * string) :=
  [ ("INTEGER", "INT");
    ("BIGINT", "BIGINT");
    ("TEXT", "VARCHAR(255)");
    ("BOOLEAN", "BOOLEAN");
    ("DATE", "DATE");
    ("FLOAT", "FLOAT");
    ("DOUBLE", "DOUBLE PRECISION");
    ("SERIAL", "SERIAL") ].

Definition sql_type_mapping : gmap string string :=
  list_to_map sql_type_mapping_items.

Definition format_column_details (column : Column) : string :=
  let sql_type := Py.dict_get sql_type_mapping (column_type column) "VARCHAR(255)" in
  let details := column_name column +:+ " " +:+ sql_type in
  if primary_key column then details +:+ " PRIMARY KEY" else details.

Definition format_table_metadata (table_obj : TableObj) : string :=
  let table_details := "Table Name: " +:+ table_obj_name table_obj +:+ "
" in
  table_details +:+ Py.join "
" (map format_column_details (table_obj_columns table_obj)).

(** ** Tabular data and the database engine *)

(** A pandas DataFrame as the module uses it: [dataframe.columns] and
    [dataframe.values.tolist()]. *)
Record DataFrame : Type := {
  df_columns : list string;
  df_values : list (list string)
}.

(** A table of the engine: its columns in creation order, and its rows; a
    row binds the columns it was inserted with, every other column is
    NULL in it. *)
Record Table : Type := {
  columns : list string;
  rows : list (list (string * string))
}.

(** The statements the module sends.  Identifiers are interpolated raw by
    the module ([AsIs], f-strings) and are kept here as they are given;
    [sql_text] is the text the module builds.  A table name stands for
    the table that the server holds under it; a column name, which comes
    from the data, is read by the server (see [engine]). *)
Inductive statement : Type :=
  | CreateTableIfNotExists (table_name : string)
  | AlterTableAddColumnIfNotExists (table_name col : string)
  | InsertInto (table_name : string) (cols : list string)
  | SetSearchPath
  | RawSql (sql : string).

Definition sql_text (s : statement) : string :=
  match s with
  | CreateTableIfNotExists table_name =>
      "CREATE TABLE IF NOT EXISTS " +:+ table_name +:+ " ();"
  | AlterTableAddColumnIfNotExists table_name col =>
      "ALTER TABLE " +:+ table_name +:+ " ADD COLUMN IF NOT EXISTS " +:+ col +:+ " TEXT;"
  | InsertInto table_name cols =>
      let insert_columns := Py.join ", " cols in
      let insert_values := Py.join ", " (replicate (List.length cols) "%s") in
      "INSERT INTO " +:+ table_name +:+ " (" +:+ insert_columns +:+ ") VALUES ("
        +:+ insert_values +:+ ")"
  | SetSearchPath => "SET search_path TO %s"
  | RawSql sql => sql
  end.

Definition empty_table : Table := {| columns := []; rows := [] |}.

(** [ADD COLUMN IF NOT EXISTS]: an existing column is left alone, a new one
    is appended. *)
Definition add_column (col : string) (t : Table) : Table :=
  if bool_decide (col ∈ columns t) then t
  else {| columns := columns t ++ [col]; rows := rows t |}.

Definition insert_row (cols : list string) (row : list string) (t : Table) : Table :=
  {| columns := columns t; rows := rows t ++ [zip cols row] |}.

(** The names that the server reads in a list of unquoted names; [None]
    when one of them is not a name for the server. *)
Fixpoint read_names (identifier : string -> option string) (names : list string)
  : option (list string) :=
  match names with
  | [] => Some []
  | name :: rest =>
      match identifier name, read_names identifier rest with
      | Some read, Some reads => Some (read :: reads)
      | _, _ => None
      end
  end.

(** What the engine does with one statement on the state [d] that the
    transaction sees.  [raw] interprets the SQL text that the module passes
    through without looking at it (queries, updates, view definitions).
    [identifier] is the server's reading of a column name that the
    statement holds unquoted: [None] when the text is not one identifier
    for the server (a syntax error), otherwise the name that the server
    uses for it (PostgreSQL folds letters to lower case).  A statement is
    parsed before its table is looked up.  A table is looked up under the
    name that the statement gives it. *)
Definition engine (raw : string -> option (list string) -> gmap string Table -> gmap string Table)
    (identifier : string -> option string)
    (s : statement) (params : option (list string)) (d : gmap string Table)
  : driver_error + gmap string Table :=
  match s with
  | CreateTableIfNotExists table_name =>
      match d !! table_name with
      | Some _ => inr d
      | None => inr (<[table_name := empty_table]> d)
      end
  | AlterTableAddColumnIfNotExists table_name col =>
      match identifier col with
      | None => inl (SyntaxError (sql_text s))
      | Some name =>
          match d !! table_name with
          | None => inl (UndefinedTable table_name)
          | Some t => inr (<[table_name := add_column name t]> d)
          end
      end
  | InsertInto table_name cols =>
      match params with
      | None => inl (ProgrammingError "not enough arguments for format string")
      | Some row =>
          if negb (List.length row =? List.length cols)%nat
          then inl (ProgrammingError "not all arguments converted")
          else if bool_decide (cols = [])
          then inl (SyntaxError (sql_text s))
          else match read_names identifier cols with
               | None => inl (SyntaxError (sql_text s))
               | Some names =>
                   match d !! table_name with
                   | None => inl (UndefinedTable table_name)
                   | Some t =>
                       match filter (fun c => c ∉ columns t) names with
                       | missing :: _ => inl (UndefinedColumn table_name missing)
                       | [] =>
                           if bool_decide (NoDup names)
                           then inr (<[table_name := insert_row names row t]> d)
                           else inl (ProgrammingError "column specified more than once")
                       end
                   end
               end
      end
  | SetSearchPath => inr d
  | RawSql sql => inr (raw sql params d)
  end.

(** SQLAlchemy's [MetaData]: the reflected tables, in reflection order. *)
Record MetaData : Type := {
  metadata_tables : list (string * TableObj)
}.

(** ** The world: server, sessions, journal, log *)

(** The state of a session's transaction.  psycopg2 opens a transaction
    with the first statement and keeps it until [commit] or [rollback]
    (the module never turns autocommit on); a statement that fails leaves
    the transaction in the failed state, in which the server refuses every
    statement and ends the transaction by rolling it back. *)
Inductive transaction : Type :=
  | Idle
  | Active (view : gmap string Table)
  | Failed.

Record Session : Type := {
  closed : bool;
  tx : transaction
}.

(** Driver calls, as they are journalled. *)
Inductive call : Type :=
  | CallConnect
  | CallCursor (connection : nat)
  | CallCursorClose (connection : nat)
  | CallExecute (connection : nat) (s : statement) (params : option (list string))
  | CallExecuteMany (connection : nat) (s : statement) (rows : list (list string))
  | CallReadSql (connection : nat) (sql : string) (params : option (list string))
  | CallCommit (connection : nat)
  | CallRollback (connection : nat)
  | CallClose (connection : nat).

Inductive log_record : Type :=
  | LogInfo (msg : string)
  | LogError (msg : string) (error : exn).

(** [committed] is the durable state of the server; [sessions] are the
    sessions opened so far, a connection being the index of its session;
    [faults] says, for each statement, commit or connection attempt that
    reaches the server, whether the server fails it ([None]: it does not;
    an exhausted plan: no further failure); [journal] and [logged] grow
    at the end.  [raw_sql] and [raw_select] are the engine's reading of SQL
    text the module does not look into; [reflect schema table metadata] is
    [metadata.reflect(bind=engine, only=[table], schema=schema)];
    [identifier] is the server's reading of an unquoted column name (see
    [engine]); [encodes] says whether psycopg2 can encode a bound value
    for the connection.  Sessions are used one at a time, as the module
    does. *)
Record World : Type := {
  committed : gmap string Table;
  sessions : list Session;
  faults : list (option driver_error);
  journal : list call;
  logged : list log_record;
  raw_sql : string -> option (list string) -> gmap string Table -> gmap string Table;
  raw_select : string -> option (list string) -> gmap string Table -> DataFrame;
  reflect : string -> string -> MetaData -> driver_error + MetaData;
  identifier : string -> option string;
  encodes : string -> bool
}.

Definition set_committed (d : gmap string Table) (w : World) : World :=
  {| committed := d; sessions := sessions w; faults := faults w;
     journal := journal w; logged := logged w;
     raw_sql := raw_sql w; raw_select := raw_select w; reflect := reflect w;
     identifier := identifier w; encodes := encodes w |}.

Definition set_sessions (ss : list Session) (w : World) : World :=
  {| committed := committed w; sessions := ss; faults := faults w;
     journal := journal w; logged := logged w;
     raw_sql := raw_sql w; raw_select := raw_select w; reflect := reflect w;
     identifier := identifier w; encodes := encodes w |}.

Definition set_faults (fs : list (option driver_error)) (w : World) : World :=
  {| committed := committed w; sessions := sessions w; faults := fs;
     journal := journal w; logged := logged w;
     raw_sql := raw_sql w; raw_select := raw_select w; reflect := reflect w;
     identifier := identifier w; encodes := encodes w |}.

Definition record_call (c : call) (w : World) : World :=
  {| committed := committed w; sessions := sessions w; faults := faults w;
     journal := journal w ++ [c]; logged := logged w;
     raw_sql := raw_sql w; raw_select := raw_select w; reflect := reflect w;
     identifier := identifier w; encodes := encodes w |}.

Definition record_log (r : log_record) (w : World) : World :=
  {| committed := committed w; sessions := sessions w; faults := faults w;
     journal := journal w; logged := logged w ++ [r];
     raw_sql := raw_sql w; raw_select := raw_select w; reflect := reflect w;
     identifier := identifier w; encodes := encodes w |}.

Definition set_tx (connection : nat) (t : transaction) (w : World) : World :=
  set_sessions (alter (fun s => {| closed := closed s; tx := t |}) connection (sessions w)) w.

(** A connection is live when its session exists and is not closed. *)
Definition live_session (connection : nat) (w : World) : option Session :=
  match sessions w !! connection with
  | Some s => if closed s then None else Some s
  | None => None
  end.

(** What the next statement of a session operates on. *)
Definition current_view (s : Session) (w : World) : gmap string Table :=
  match tx s with
  | Active view => view
  | _ => committed w
  end.

(** The table [table_name] as the next statement of [connection] sees it. *)
Definition view_table (connection : nat) (table_name : string) (w : World)
  : option Table :=
  match live_session connection w with
  | Some ses => current_view ses w !! table_name
  | None => None
  end.

Definition next_fault (w : World) : option driver_error * World :=
  match faults w with
  | [] => (None, w)
  | f :: rest => (f, set_faults rest w)
  end.

(** ** The monad of the module's functions: state and exceptions *)

Definition M (A : Type) : Type := World -> result A * World.

Definition ret {A} (a : A) : M A := fun w => (Ok a, w).

Definition raise {A} (e : exn) : M A := fun w => (Raise e, w).

Definition bind {A B} (m : M A) (k : A -> M B) : M B :=
  fun w =>
    match m w with
    | (Ok a, w') => k a w'
    | (Raise e, w') => (Raise e, w')
    end.

Notation "x <-- m ;;; k" := (bind m (fun x => k))
  (at level 100, m at next level, right associativity, only parsing).
Notation "m ;;; k" := (bind m (fun _ => k))
  (at level 100, right associativity, only parsing).

(** [try: body  except Exception as error: handler error] *)
Definition try_except {A} (body : M A) (handler : exn -> M A) : M A :=
  fun w =>
    match body w with
    | (Ok a, w') => (Ok a, w')
    | (Raise error, w') => handler error w'
    end.

(** [try: body  finally: cleanup]: the cleanup runs on both outcomes, and
    an exception of the cleanup replaces the outcome of the body. *)
Definition try_finally {A} (body : M A) (cleanup : M unit) : M A :=
  fun w =>
    match body w with
    | (r, w') =>
        match cleanup w' with
        | (Ok _, w'') => (r, w'')
        | (Raise e, w'') => (Raise e, w'')
        end
    end.

(** [for x in xs: body x] *)
Fixpoint for_each {A} (xs : list A) (body : A -> M unit) : M unit :=
  match xs with
  | [] => ret tt
  | x :: rest => bind (body x) (fun _ => for_each rest body)
  end.

Definition when (b : bool) (m : M unit) : M unit :=
  if b then m else ret tt.

Definition logger_info (msg : string) : M unit :=
  fun w => (Ok tt, record_log (LogInfo msg) w).

Definition logger_error (msg : string) (error : exn) : M unit :=
  fun w => (Ok tt, record_log (LogError msg error) w).

(** ** The driver: psycopg2 connections and cursors, pandas.read_sql *)

Definition connection_closed : exn :=
  DriverError (InterfaceError "connection already closed").

(** The first bound value that psycopg2 cannot encode for the connection. *)
Definition unencodable (w : World) (params : option (list string)) : option string :=
  match params with
  | None => None
  | Some values => List.find (fun value => negb (encodes w value)) values
  end.

(** One statement of a live session.  A bound value that cannot be
    encoded fails in the driver, before anything is sent; otherwise the
    statement is refused in a failed transaction, or failed by the
    server's fault plan or by the engine (the transaction is then
    failed), or applied to the transaction's view. *)
Definition run_statement (connection : nat) (s : statement)
    (params : option (list string)) : M unit :=
  fun w =>
    match live_session connection w with
    | None => (Raise connection_closed, w)
    | Some ses =>
        match unencodable w params with
        | Some text => (Raise (DriverError (UnicodeEncodeError text)), w)
        | None =>
            match tx ses with
            | Failed => (Raise (DriverError InFailedSqlTransaction), w)
            | _ =>
                match next_fault w with
                | (Some e, w') => (Raise (DriverError e), set_tx connection Failed w')
                | (None, w') =>
                    match engine (raw_sql w) (identifier w) s params (current_view ses w) with
                    | inl e => (Raise (DriverError e), set_tx connection Failed w')
                    | inr d => (Ok tt, set_tx connection (Active d) w')
                    end
                end
            end
        end
    end.

Module psycopg2.

(** [psycopg2.connect(...)]: a new session, not in a transaction. *)
Definition connect (credentials : PostgresCredentials) : M nat :=
  fun w =>
    match next_fault (record_call CallConnect w) with
    | (Some e, w') => (Raise (DriverError e), w')
    | (None, w') =>
        (Ok (List.length (sessions w')),
         set_sessions (sessions w' ++ [{| closed := false; tx := Idle |}]) w')
    end.

(** [connection.cursor()]; a cursor is identified with its connection. *)
Definition cursor (connection : nat) : M nat :=
  fun w =>
    let w := record_call (CallCursor connection) w in
    match live_session connection w with
    | None => (Raise connection_closed, w)
    | Some _ => (Ok connection, w)
    end.

Definition cursor_close (cursor : nat) : M unit :=
  fun w => (Ok tt, record_call (CallCursorClose cursor) w).

(** [cursor.execute(query, params)] *)
Definition execute (cursor : nat) (s : statement) (params : option (list string))
  : M unit :=
  fun w => run_statement cursor s params (record_call (CallExecute cursor s params) w).

(** [cursor.executemany(query, rows)]: the statement once per row, in
    order; nothing is sent for an empty list of rows. *)
Definition executemany (cursor : nat) (s : statement) (rows : list (list string))
  : M unit :=
  fun w =>
    let w := record_call (CallExecuteMany cursor s rows) w in
    match live_session cursor w with
    | None => (Raise connection_closed, w)
    | Some _ => for_each rows (fun row => run_statement cursor s (Some row)) w
    end.

(** [connection.commit()]: nothing to do outside a transaction; a failed
    transaction is ended by the server as a rollback; otherwise the view
    of the transaction becomes the committed state, unless the server
    fails the commit, which discards the transaction. *)
Definition commit (connection : nat) : M unit :=
  fun w =>
    let w := record_call (CallCommit connection) w in
    match live_session connection w with
    | None => (Raise connection_closed, w)
    | Some ses =>
        match tx ses with
        | Idle => (Ok tt, w)
        | Failed => (Ok tt, set_tx connection Idle w)
        | Active view =>
            match next_fault w with
            | (Some e, w') => (Raise (DriverError e), set_tx connection Idle w')
            | (None, w') => (Ok tt, set_tx connection Idle (set_committed view w'))
            end
        end
    end.

(** [connection.rollback()] *)
Definition rollback (connection : nat) : M unit :=
  fun w =>
    let w := record_call (CallRollback connection) w in
    match live_session connection w with
    | None => (Raise connection_closed, w)
    | Some _ => (Ok tt, set_tx connection Idle w)
    end.

(** [connection.close()]: never fails, closing twice is allowed; what was
    not committed is lost. *)
Definition close (connection : nat) : M unit :=
  fun w =>
    let w := record_call (CallClose connection) w in
    (Ok tt,
     set_sessions (alter (fun _ => {| closed := true; tx := Idle |}) connection (sessions w)) w).

End psycopg2.

(** [with connection.cursor() as cursor: body] *)
Definition with_cursor {A} (connection : nat) (body : nat -> M A) : M A :=
  bind (psycopg2.cursor connection)
       (fun cursor => try_finally (body cursor) (psycopg2.cursor_close cursor)).

Module pd.

(** [pd.read_sql(query, connection, params=params)]: pandas runs the
    query on a cursor of the connection and builds the DataFrame from
    all rows; on a failure it rolls the connection back and raises its
    own [DatabaseError] from the driver's error.  It never commits. *)
Definition read_sql (query : string) (connection : nat)
    (params : option (list string)) : M DataFrame :=
  fun w =>
    let w := record_call (CallReadSql connection query params) w in
    match live_session connection w with
    | None => (Raise connection_closed, w)
    | Some ses =>
        match unencodable w params with
        | Some text =>
            (Raise (DriverError (PandasDatabaseError (UnicodeEncodeError text))),
             set_tx connection Idle w)
        | None =>
            match tx ses with
            | Failed =>
                (Raise (DriverError (PandasDatabaseError InFailedSqlTransaction)),
                 set_tx connection Idle w)
            | _ =>
                match next_fault w with
                | (Some e, w') =>
                    (Raise (DriverError (PandasDatabaseError e)), set_tx connection Idle w')
                | (None, w') =>
                    (Ok (raw_select w query params (current_view ses w)),
                     set_tx connection (Active (current_view ses w)) w')
                end
            end
        end
    end.

End pd.

(** ** MetadataCache (lines 58-115) *)

(** The object's fields [schema], [tables] and [metadata_cache]; the engine
    is the world's [reflect].  The lock only orders concurrent callers and
    has no part in one call. *)
Record MetadataCache : Type := {
  mc_schema : string;
  mc_tables : list string;
  metadata_cache : option MetaData
}.

Definition MetadataCache_init (schema : string) (tables : list string) : MetadataCache :=
  {| mc_schema := schema; mc_tables := tables; metadata_cache := None |}.

(** [metadata.reflect(bind=self.engine, only=[table], schema=self.schema)]
    on the local [metadata], which it extends in place. *)
Definition metadata_reflect (schema table : string) (metadata : MetaData) : M MetaData :=
  fun w =>
    match reflect w schema table metadata with
    | inl e => (Raise (DriverError e), w)
    | inr metadata' => (Ok metadata', w)
    end.

(** The loop of lines 97-98, threading the local [metadata]. *)
Fixpoint reflect_all (schema : string) (tables : list string) (metadata : MetaData)
  : M MetaData :=
  match tables with
  | [] => ret metadata
  | table :: rest =>
      bind (metadata_reflect schema table metadata)
           (fun metadata' => reflect_all schema rest metadata')
  end.

(** Returns the object after the call. *)
Definition refresh_metadata_cache (self : MetadataCache) : M MetadataCache :=
  try_except
    (metadata <-- reflect_all (mc_schema self) (mc_tables self) {| metadata_tables := [] |} ;;;
     let self' := {| mc_schema := mc_schema self; mc_tables := mc_tables self;
                     metadata_cache := Some metadata |} in
     logger_info "Metadata cache refreshed." ;;;
     ret self')
    (fun e =>
       logger_error "Error refreshing metadata cache: " e ;;;
       ret self).

Definition display_metadata (self : MetadataCache) : M unit :=
  match metadata_cache self with
  | None => logger_info "Metadata cache is empty. Please refresh it first."
  | Some metadata =>
      for_each (metadata_tables metadata)
        (fun '(table_name, table) =>
           let column_definitions := map format_column_details (table_obj_columns table) in
           let create_table_statement :=
             "CREATE TABLE " +:+ table_name +:+ " (
    " +:+ Py.join ",
    " column_definitions +:+ "
);" in
           logger_info create_table_statement)
  end.

(** ** Connections (lines 119-144) *)

(** Truthiness of a string: [if credentials.schema:] *)
Definition truthy (s : string) : bool :=
  match s with
  | EmptyString => false
  | _ => true
  end.

Definition _get_connection (credentials : PostgresCredentials) : M nat :=
  try_except
    (connection <-- psycopg2.connect credentials ;;;
     when (truthy (schema credentials))
       (with_cursor connection
          (fun cursor =>
             psycopg2.execute cursor SetSearchPath (Some [schema credentials])) ;;;
        logger_info ("Schema set to " +:+ schema credentials)) ;;;
     ret connection)
    (fun error =>
       logger_error "Error getting connection: " error ;;;
       raise (ConnectionError (Wrapping error))).


(** ** Queries (lines 146-161) *)

(** An absent connection is [None]; a psycopg2 connection object is always
    truthy. *)
Definition query_database (connection : option nat) (query : string)
    (params : option (list string)) (close_connection : bool) : M DataFrame :=
  match connection with
  | None => raise (ConnectionError (Message "No connection to database."))
  | Some connection =>
      try_finally
        (try_except
           (df <-- pd.read_sql query connection params ;;;
            logger_info "Query executed successfully." ;;;
            ret df)
           (fun error =>
              logger_error "Query execution error: " error ;;;
              raise error))
        (when close_connection
           (psycopg2.close connection ;;;
            logger_info "Database connection closed."))
  end.

(** ** Provisioning (lines 194-227) *)

Definition create_table (connection : nat) (table_name : string) : M unit :=
  try_except
    (cursor <-- psycopg2.cursor connection ;;;
     let create_table_query := CreateTableIfNotExists table_name in
     psycopg2.execute cursor create_table_query None ;;;
     psycopg2.commit connection ;;;
     psycopg2.cursor_close cursor ;;;
     logger_info ("Table '" +:+ table_name +:+ "' created successfully."))
    (fun error =>
       logger_error "Error in creating table: " error ;;;
       raise error).

Definition populate_table (connection : nat) (table_name : string)
    (dataframe : DataFrame) : M unit :=
  try_except
    (cursor <-- psycopg2.cursor connection ;;;
     for_each (df_columns dataframe)
       (fun col =>
          let alter_table_query := AlterTableAddColumnIfNotExists table_name col in
          psycopg2.execute cursor alter_table_query None) ;;;
     let insert_query := InsertInto table_name (df_columns dataframe) in
     psycopg2.executemany cursor insert_query (df_values dataframe) ;;;
     psycopg2.commit connection ;;;
     psycopg2.cursor_close cursor ;;;
     logger_info ("Data inserted into table '" +:+ table_name +:+ "' successfully."))
    (fun error =>
       logger_error "Error in populating table: " error ;;;
       raise error).

(** ** Updates and views (lines 229-266) *)

Definition update_records (connection : option nat) (update_query : string)
    (params : option (list string)) (close_connection : bool) : M unit :=
  match connection with
  | None => raise (ConnectionError (Message "No connection to database."))
  | Some connection =>
      try_finally
        (try_except
           (with_cursor connection
              (fun cursor =>
                 psycopg2.execute cursor (RawSql update_query) params ;;;
                 psycopg2.commit connection ;;;
                 logger_info "Update query executed successfully."))
           (fun error =>
              psycopg2.rollback connection ;;;
              logger_error "Update query execution error: " error ;;;
              raise error))
        (when close_connection
           (psycopg2.close connection ;;;
            logger_info "Database connection closed."))
  end.

Definition create_view (connection : option nat) (view_name view_query : string)
    (close_connection : bool) : M unit :=
  match connection with
  | None => raise (ConnectionError (Message "No connection to database."))
  | Some connection =>
      try_finally
        (try_except
           (with_cursor connection
              (fun cursor =>
                 let create_view_query :=
                   "CREATE OR REPLACE VIEW " +:+ view_name +:+ " AS " +:+ view_query in
                 psycopg2.execute cursor (RawSql create_view_query) None ;;;
                 psycopg2.commit connection ;;;
                 logger_info ("View '" +:+ view_name +:+ "' created successfully.")))
           (fun error =>
              psycopg2.rollback connection ;;;
              logger_error ("Error creating view '" +:+ view_name +:+ "': ") error ;;;
              raise error))
        (when close_connection
           (psycopg2.close connection ;;;
            logger_info "Database connection closed."))
  end.

(** ** Statements of the design document, in its own words

    The definitions of this part follow the design document, not the code;
    the theorems compare them with the functions above. *)

(** The error kinds of the design document (its section 7). *)
Inductive error_kind : Type :=
  | ConnectionErrorKind
  | QueryErrorKind
  | TableNotFoundErrorKind.

(** The kind a caller's [except] clause can match a raised exception on:
    its class.  The module defines the class [ConnectionError] and no
    other; the exceptions of the collaborators have their own classes. *)
Definition kind_of (e : exn) : option error_kind :=
  match e with
  | ConnectionError _ => Some ConnectionErrorKind
  | DriverError _ => None
  | ValueError _ => None
  end.

(** [TableNotFoundError] is a specialization of [QueryError]. *)
Definition is_query_error (e : exn) : bool :=
  match kind_of e with
  | Some QueryErrorKind | Some TableNotFoundErrorKind => true
  | _ => false
  end.

Definition is_table_not_found_error (e : exn) : bool :=
  match kind_of e with
  | Some TableNotFoundErrorKind => true
  | _ => false
  end.

(** "Every failure during query, update, view creation or DDL execution is
    re-raised as the QueryError kind; populating a table that was never
    created fails with the TableNotFoundError kind." *)
Definition failures_are_query_errors : Prop :=
  (forall connection query params close_connection w e w',
      query_database (Some connection) query params close_connection w = (Raise e, w') ->
      is_query_error e = true) /\
  (forall connection update_query params close_connection w e w',
      update_records (Some connection) update_query params close_connection w = (Raise e, w') ->
      is_query_error e = true) /\
  (forall connection view_name view_query close_connection w e w',
      create_view (Some connection) view_name view_query close_connection w = (Raise e, w') ->
      is_query_error e = true) /\
  (forall connection table_name w e w',
      create_table connection table_name w = (Raise e, w') ->
      is_query_error e = true) /\
  (forall connection table_name dataframe w e w',
      populate_table connection table_name dataframe w = (Raise e, w') ->
      is_query_error e = true /\
      (is_Some (live_session connection w) ->
       view_table connection table_name w = None ->
       is_table_not_found_error e = true)).

(** The driver calls with which [populate_table] adds the columns [cols]. *)
Definition add_column_calls (connection : nat) (table_name : string)
    (cols : list string) : list call :=
  map (fun col =>
         CallExecute connection (AlterTableAddColumnIfNotExists table_name col) None)
      cols.

(** "Each ADD COLUMN is its own committed statement, so a failure partway
    through a multi-column addition leaves the columns added before it
    committed": when the call fails at the statement of the column
    [failing], every column of [added] is a column of the committed
    table. *)
Definition added_columns_stay_committed : Prop :=
  forall connection table_name added failing rest values w e w',
    populate_table connection table_name
      {| df_columns := added ++ failing :: rest; df_values := values |} w = (Raise e, w') ->
    journal w' =
      journal w ++ CallCursor connection
        :: add_column_calls connection table_name (added ++ [failing]) ->
    forall col, col ∈ added ->
      exists t, committed w' !! table_name = Some t /\ (col ∈ columns t).

(** The commit / rollback / close discipline of [update] and [createView]
    for the statement [sql] on the live session [ses] of [connection]:
    the outcome [(r, w')] of the call from [w]. *)
Definition transaction_discipline (connection : nat) (ses : Session)
    (sql : string) (params : option (list string)) (close_connection : bool)
    (w : World) (r : result unit) (w' : World) : Prop :=
  (exists ses',
      sessions w' !! connection = Some ses' /\
      closed ses' = close_connection /\
      tx ses' = Idle) /\
  match r with
  | Ok _ =>
      committed w' = raw_sql w sql params (current_view ses w) /\
      journal w' =
        journal w ++ [CallCursor connection;
                      CallExecute connection (RawSql sql) params;
                      CallCommit connection;
                      CallCursorClose connection]
                  ++ (if close_connection then [CallClose connection] else [])
  | Raise _ =>
      committed w' = committed w /\
      exists before,
        journal w' =
          journal w ++ before ++ [CallRollback connection]
                    ++ (if close_connection then [CallClose connection] else []) /\
        (CallRollback connection ∉ before) /\
        (CallClose connection ∉ before)
  end.


(** The fixed mapping from a reflected type name to the SQL type name,
    type by type, with its fallback. *)
Definition rendered_type (type_name : string) : string :=
  if String.eqb type_name "INTEGER" then "INT"
  else if String.eqb type_name "BIGINT" then "BIGINT"
  else if String.eqb type_name "TEXT" then "VARCHAR(255)"
  else if String.eqb type_name "BOOLEAN" then "BOOLEAN"
  else if String.eqb type_name "DATE" then "DATE"
  else if String.eqb type_name "FLOAT" then "FLOAT"
  else if String.eqb type_name "DOUBLE" then "DOUBLE PRECISION"
  else if String.eqb type_name "SERIAL" then "SERIAL"
  else "VARCHAR(255)".

(** ** Notions used by the proofs *)

(** The table after the loop of lines 213-215 over [cols], and after the
    insertion of [values] under the column list [cols]. *)
Definition add_columns (cols : list string) (t : Table) : Table :=
  foldl (fun t col => add_column col t) t cols.

Definition insert_rows (cols : list string) (values : list (list string)) (t : Table)
  : Table :=
  foldl (fun t row => insert_row cols row t) t values.

(** A computation that raises no exception of the module's own: every
    exception it raises comes from a call into a collaborator. *)
Definition raises_driver_errors {A} (m : M A) : Prop :=
  forall w e w', m w = (Raise e, w') -> exists d, e = DriverError d.

(** The calls into the driver of [update_records] (lines 235-237) and of
    [create_view] (lines 254-257): the statement and the commit, on a
    cursor of the connection. *)
Definition execute_and_commit (connection : nat) (s : statement)
    (params : option (list string)) : M unit :=
  with_cursor connection
    (fun cursor =>
       psycopg2.execute cursor s params ;;;
       psycopg2.commit connection).

(** The calls into the driver of [create_table] that can fail
    (lines 197-200). *)
Definition create_table_calls (connection : nat) (table_name : string) : M unit :=
  cursor <-- psycopg2.cursor connection ;;;
  psycopg2.execute cursor (CreateTableIfNotExists table_name) None ;;;
  psycopg2.commit connection.

(** The calls into the driver of [populate_table] that can fail
    (lines 210-222). *)
Definition populate_table_calls (connection : nat) (table_name : string)
    (dataframe : DataFrame) : M unit :=
  cursor <-- psycopg2.cursor connection ;;;
  for_each (df_columns dataframe)
    (fun col =>
       psycopg2.execute cursor (AlterTableAddColumnIfNotExists table_name col) None) ;;;
  psycopg2.executemany cursor (InsertInto table_name (df_columns dataframe))
    (df_values dataframe) ;;;
  psycopg2.commit connection.

(** ** Example worlds *)

Definition no_data : DataFrame := {| df_columns := []; df_values := [] |}.

(** A reflection that knows the tables [known], without columns, and fails
    on every other name. *)
Definition example_reflect (known : list string) (schema table : string)
    (metadata : MetaData) : driver_error + MetaData :=
  if bool_decide (table ∈ known)
  then inr {| metadata_tables :=
                metadata_tables metadata
                  ++ [(table, {| table_obj_name := table; table_obj_columns := [] |})] |}
  else inl (ReflectionError ("Could not reflect: requested table(s) not available: "
                             +:+ table)).

(** A server that reads as one identifier a text made of ASCII letters,
    digits and underscores that does not start with a digit, and folds
    its letters to lower case. *)
Definition upper_case : list Ascii.ascii :=
  list_ascii_of_string "ABCDEFGHIJKLMNOPQRSTUVWXYZ".

Definition lower_case : list Ascii.ascii :=
  list_ascii_of_string "abcdefghijklmnopqrstuvwxyz".

Definition digits : list Ascii.ascii := list_ascii_of_string "0123456789".

Definition one_of (chars : list Ascii.ascii) (c : Ascii.ascii) : bool :=
  existsb (Ascii.eqb c) chars.

Definition identifier_start (c : Ascii.ascii) : bool :=
  one_of upper_case c || one_of lower_case c || Ascii.eqb c "_"%char.

Definition identifier_part (c : Ascii.ascii) : bool :=
  identifier_start c || one_of digits c.

Definition fold_case (c : Ascii.ascii) : Ascii.ascii :=
  match List.find (fun entry => Ascii.eqb c entry.1) (zip upper_case lower_case) with
  | Some entry => entry.2
  | None => c
  end.

Definition example_identifier (name : string) : option string :=
  match list_ascii_of_string name with
  | [] => None
  | c :: rest =>
      if identifier_start c && forallb identifier_part rest
      then Some (string_of_list_ascii (map fold_case (c :: rest)))
      else None
  end.

(** A connection whose encoding is ASCII. *)
Definition example_encodes (text : string) : bool :=
  forallb (fun c => match c with Ascii.Ascii _ _ _ _ _ _ _ high => negb high end)
          (list_ascii_of_string text).

(** One open session outside a transaction, on a server that holds
    [server_tables] and fails by [plan]; raw SQL changes nothing. *)
Definition example_world (server_tables : gmap string Table)
    (plan : list (option driver_error)) : World :=
  {| committed := server_tables;
     sessions := [{| closed := false; tx := Idle |}];
     faults := plan;
     journal := [];
     logged := [];
     raw_sql := fun _ _ d => d;
     raw_select := fun _ _ _ => no_data;
     reflect := example_reflect ["users"];
     identifier := example_identifier;
     encodes := example_encodes |}.

(** The schema name [donn\xc3\xa9es], as UTF-8 bytes: not ASCII. *)
Definition example_schema : string :=
  "donn" +:+ String (ascii_of_nat 195) (String (ascii_of_nat 169) "es").

Definition example_credentials (schema_name : string) : PostgresCredentials :=
  {| host := Some "localhost"; database := Some "app"; user := Some "app";
     password := Some "secret"; port := 5432; schema := schema_name; tables := [""] |}.

(** ** Console rendering (lines 171-190) *)

(** What [console.print] is given: a styled text, or a table with its
    columns (header and maximal width) and its rows. *)
Inductive console_output : Type :=
  | ConsoleText (text style : string)
  | ConsoleTable (table_columns : list (string * nat)) (table_rows : list (list string)).

(** [dataframe.head(n)] *)
Definition df_head (n : nat) (dataframe : DataFrame) : DataFrame :=
  {| df_columns := df_columns dataframe; df_values := take n (df_values dataframe) |}.

(** Returns what the function prints, in order.  The values of the
    DataFrame are strings here, so [str(item)] and [str(col)] are the
    identity. *)
Definition display_results_as_table (dataframe : DataFrame) (max_column_width : nat)
  : list console_output :=
  let display_limit := 50 in
  let warning :=
    if (display_limit <? List.length (df_values dataframe))%nat
    then [ConsoleText
            ("Data is too big! Displaying only the first [red]50[/red] rows. "
             +:+ "To view all data, export it as a CSV using the included function: "
             +:+ "'[green]save_results_to_csv[/green]'.")
            "yellow"]
    else [] in
  let limited_dataframe :=
    if (display_limit <? List.length (df_values dataframe))%nat
    then df_head display_limit dataframe
    else dataframe in
  let table_columns :=
    map (fun col => (col, max_column_width)) (df_columns limited_dataframe) in
  let table_rows := df_values limited_dataframe in
  warning ++ [ConsoleTable table_columns table_rows].

(** The connection can run statements and the server fails none of them:
    its session is live, its transaction is not failed, and no failure
    is planned. *)
Definition serves (connection : nat) (w : World) : Prop :=
  (exists ses, live_session connection w = Some ses /\ tx ses <> Failed) /\
  Forall (fun f => f = None) (faults w).

(** * Proofs *)

(** ** The monad *)

Lemma bind_Ok_inv {A B} (m : M A) (k : A -> M B) w b w' :
  bind m k w = (Ok b, w') ->
  exists a w1, m w = (Ok a, w1) /\ k a w1 = (Ok b, w').
Proof.
  unfold bind. destruct (m w) as [[a|e] w1]; [eauto | discriminate].
Qed.

Lemma bind_Raise_inv {A B} (m : M A) (k : A -> M B) w e w' :
  bind m k w = (Raise e, w') ->
  m w = (Raise e, w') \/ exists a w1, m w = (Ok a, w1) /\ k a w1 = (Raise e, w').
Proof.
  unfold bind. destruct (m w) as [[a|e1] w1]; [eauto | intros [= -> ->]; auto].
Qed.

(** A handler that logs and re-raises lets nothing through as a success. *)
Lemma try_except_reraise_Ok {A} (body : M A) msg w a w' :
  try_except body (fun error => bind (logger_error msg error) (fun _ => raise error)) w
    = (Ok a, w') ->
  body w = (Ok a, w').
Proof.
  unfold try_except. destruct (body w) as [[a'|e] w1]; [done|]. discriminate.
Qed.

Lemma try_except_reraise_Raise {A} (body : M A) msg w e w' :
  try_except body (fun error => bind (logger_error msg error) (fun _ => raise error)) w
    = (Raise e, w') ->
  exists w1, body w = (Raise e, w1) /\ w' = record_log (LogError msg e) w1.
Proof.
  unfold try_except. destruct (body w) as [[a'|e1] w1]; [discriminate|].
  intros [= <- <-]. eauto.
Qed.

Lemma for_each_frame {A} (xs : list A) (body : A -> M unit) (P : World -> World -> Prop) :
  (forall w, P w w) ->
  (forall w1 w2 w3, P w1 w2 -> P w2 w3 -> P w1 w3) ->
  (forall x w r w', body x w = (r, w') -> P w w') ->
  forall w r w', for_each xs body w = (r, w') -> P w w'.
Proof.
  intros Hrefl Htrans Hbody. induction xs as [|x rest IH]; intros w r w'; simpl.
  - intros [= <- <-]. apply Hrefl.
  - unfold bind. destruct (body x w) as [[[]|e] w1] eqn:Hx.
    + intros Hrest. eapply Htrans; [eapply Hbody, Hx | eapply IH, Hrest].
    + intros [= <- <-]. eapply Hbody, Hx.
Qed.

(** ** The driver *)

Lemma lookup_live connection w ses :
  live_session connection w = Some ses ->
  sessions w !! connection = Some ses /\ closed ses = false.
Proof.
  unfold live_session. destruct (sessions w !! connection) as [s|]; [|discriminate].
  destruct (closed s) eqn:Hc; [discriminate|]. intros [= <-]. auto.
Qed.

Lemma live_session_set_tx connection t w ses :
  live_session connection w = Some ses ->
  live_session connection (set_tx connection t w) = Some {| closed := false; tx := t |}.
Proof.
  intros [Hses Hopen]%lookup_live. unfold live_session, set_tx. simpl.
  rewrite list_lookup_alter_eq, Hses. simpl. rewrite Hopen. reflexivity.
Qed.

Lemma unencodable_record_call c (w : World) params :
  unencodable (record_call c w) params = unencodable w params.
Proof. reflexivity. Qed.

Lemma live_session_record_call connection c w :
  live_session connection (record_call c w) = live_session connection w.
Proof. reflexivity. Qed.

(** What no statement changes: the committed state, the journal, the
    engine's reading of raw SQL. *)
Lemma run_statement_frame connection s params w r w' :
  run_statement connection s params w = (r, w') ->
  committed w' = committed w /\ journal w' = journal w /\ raw_sql w' = raw_sql w /\
  identifier w' = identifier w /\ encodes w' = encodes w.
Proof.
  unfold run_statement, next_fault.
  destruct (live_session connection w) as [ses|]; [|intros [= <- <-]; auto].
  destruct (unencodable w params); [intros [= <- <-]; auto|].
  destruct (tx ses), (faults w) as [|[e|] fs]; simpl;
    try destruct (engine _ _ _ _ _); intros [= <- <-]; auto.
Qed.


Lemma statements_keep_committed {A} (xs : list A) (f : A -> statement)
    (g : A -> option (list string)) (h : A -> World -> World) connection w r w' :
  (forall x w, committed (h x w) = committed w) ->
  for_each xs (fun x w => run_statement connection (f x) (g x) (h x w)) w = (r, w') ->
  committed w' = committed w.
Proof.
  intros Hh. apply (for_each_frame xs _ (fun w w' => committed w' = committed w)).
  - done.
  - intros w1 w2 w3 H12 H23. by rewrite H23.
  - intros x w0 r0 w0' (-> & _)%run_statement_frame. apply Hh.
Qed.

Lemma statements_keep_journal {A} (xs : list A) (f : A -> statement)
    (g : A -> option (list string)) connection w r w' :
  for_each xs (fun x => run_statement connection (f x) (g x)) w = (r, w') ->
  journal w' = journal w.
Proof.
  apply (for_each_frame xs _ (fun w w' => journal w' = journal w)).
  - done.
  - intros w1 w2 w3 H12 H23. by rewrite H23.
  - by intros x w0 r0 w0' (_ & -> & _)%run_statement_frame.
Qed.

Lemma executemany_frame connection s values w r w' :
  psycopg2.executemany connection s values w = (r, w') ->
  committed w' = committed w /\
  journal w' = journal w ++ [CallExecuteMany connection s values].
Proof.
  unfold psycopg2.executemany.
  destruct (live_session _ _); [|intros [= <- <-]; done].
  intros Hloop. split.
  - by apply (statements_keep_committed _ _ _ (fun _ w => w)) in Hloop.
  - by apply statements_keep_journal in Hloop.
Qed.

Lemma commit_Ok_view connection table_name w w' t0 :
  psycopg2.commit connection w = (Ok tt, w') ->
  view_table connection table_name w = Some t0 ->
  committed w' !! table_name = Some t0 /\
  view_table connection table_name w' = Some t0.
Proof.
  unfold psycopg2.commit, view_table, next_fault. simpl.
  change (live_session connection (record_call (CallCommit connection) w))
    with (live_session connection w).
  destruct (live_session connection w) as [ses|] eqn:Hlive; [|discriminate].
  unfold current_view at 1.
  destruct (tx ses) eqn:Htx.
  - intros [= <-]. simpl.
    change (live_session connection (record_call (CallCommit connection) w))
      with (live_session connection w).
    rewrite Hlive. unfold current_view. rewrite Htx. simpl. auto.
  - destruct (faults w) as [|[e|] fs]; simpl; try discriminate;
      intros [= <-] Hview; simpl; (split; [done|]);
      erewrite live_session_set_tx by exact Hlive; done.
  - intros [= <-] Hview. simpl. split; [done|].
    erewrite live_session_set_tx by exact Hlive. done.
Qed.

Lemma commit_Raise_committed connection w e w' :
  psycopg2.commit connection w = (Raise e, w') -> committed w' = committed w.
Proof.
  unfold psycopg2.commit, next_fault. simpl.
  destruct (live_session _ _) as [ses|]; [|intros [= <- <-]; done].
  destruct (tx ses), (faults w) as [|[e1|] fs]; simpl; intros [= <- <-]; done.
Qed.

Lemma commit_journal connection w r w' :
  psycopg2.commit connection w = (r, w') ->
  journal w' = journal w ++ [CallCommit connection].
Proof.
  unfold psycopg2.commit, next_fault. simpl.
  destruct (live_session _ _) as [ses|]; [|intros [= <- <-]; done].
  destruct (tx ses), (faults w) as [|[e1|] fs]; simpl; intros [= <- <-]; done.
Qed.

Ltac unfold_driver :=
  unfold with_cursor, try_finally, try_except, bind, when,
    psycopg2.cursor, psycopg2.cursor_close, psycopg2.execute, psycopg2.commit,
    psycopg2.rollback, psycopg2.close, pd.read_sql, run_statement,
    logger_info, logger_error, raise, ret, live_session, next_fault, set_tx.

(** ** Exceptions of the collaborators *)

Lemma rde_ret {A} (a : A) : raises_driver_errors (ret a).
Proof. intros w e w'. discriminate. Qed.

Lemma rde_raise {A} d : raises_driver_errors (@raise A (DriverError d)).
Proof. intros w e w' [= <- _]. eauto. Qed.

Lemma rde_bind {A B} (m : M A) (k : A -> M B) :
  raises_driver_errors m -> (forall a, raises_driver_errors (k a)) ->
  raises_driver_errors (bind m k).
Proof.
  intros Hm Hk w e w' [H|(a & w1 & _ & H)]%bind_Raise_inv; [eapply Hm|eapply Hk]; exact H.
Qed.

Lemma rde_for_each {A} (xs : list A) (body : A -> M unit) :
  (forall x, raises_driver_errors (body x)) -> raises_driver_errors (for_each xs body).
Proof.
  intros Hbody. induction xs as [|x rest IH]; simpl.
  - apply rde_ret.
  - apply rde_bind; auto.
Qed.

Lemma rde_try_except {A} (body : M A) (handler : exn -> M A) :
  raises_driver_errors body ->
  (forall d, raises_driver_errors (handler (DriverError d))) ->
  raises_driver_errors (try_except body handler).
Proof.
  intros Hbody Hhandler w e w'. unfold try_except.
  destruct (body w) as [[a|e1] w1] eqn:Hb; [discriminate|].
  destruct (Hbody _ _ _ Hb) as [d ->]. apply Hhandler.
Qed.

Lemma rde_try_finally {A} (body : M A) (cleanup : M unit) :
  raises_driver_errors body -> raises_driver_errors cleanup ->
  raises_driver_errors (try_finally body cleanup).
Proof.
  intros Hbody Hcleanup w e w'. unfold try_finally.
  destruct (body w) as [r w1] eqn:Hb. destruct (cleanup w1) as [[[]|e2] w2] eqn:Hc.
  - intros [= -> <-]. eapply Hbody, Hb.
  - intros [= <- <-]. eapply Hcleanup, Hc.
Qed.

Lemma rde_when b (m : M unit) :
  raises_driver_errors m -> raises_driver_errors (when b m).
Proof. destruct b; simpl; [done|]. intros _. apply rde_ret. Qed.

Lemma rde_logger_info msg : raises_driver_errors (logger_info msg).
Proof. intros w e w'. discriminate. Qed.

Lemma rde_logger_error msg error : raises_driver_errors (logger_error msg error).
Proof. intros w e w'. discriminate. Qed.

Lemma rde_run_statement connection s params :
  raises_driver_errors (run_statement connection s params).
Proof.
  intros w e w'. unfold run_statement, next_fault, connection_closed.
  destruct (live_session connection w) as [ses|]; [|intros [= <- _]; eauto].
  destruct (unencodable w params); [intros [= <- _]; eauto|].
  destruct (tx ses), (faults w) as [|[e1|] fs]; simpl;
    try destruct (engine _ _ _ _ _); intros [= <- _]; eauto.
Qed.

Lemma rde_cursor connection : raises_driver_errors (psycopg2.cursor connection).
Proof.
  intros w e w'. unfold psycopg2.cursor, connection_closed.
  destruct (live_session _ _); intros [= <- _]; eauto.
Qed.

Lemma rde_cursor_close cursor : raises_driver_errors (psycopg2.cursor_close cursor).
Proof. intros w e w'. discriminate. Qed.

Lemma rde_execute cursor s params :
  raises_driver_errors (psycopg2.execute cursor s params).
Proof. intros w e w'. unfold psycopg2.execute. apply rde_run_statement. Qed.

Lemma rde_executemany cursor s values :
  raises_driver_errors (psycopg2.executemany cursor s values).
Proof.
  intros w e w'. unfold psycopg2.executemany, connection_closed.
  destruct (live_session _ _); [|intros [= <- _]; eauto].
  apply rde_for_each. intros row. apply rde_run_statement.
Qed.

Lemma rde_commit connection : raises_driver_errors (psycopg2.commit connection).
Proof.
  intros w e w'. unfold psycopg2.commit, next_fault, connection_closed. simpl.
  destruct (live_session _ _) as [ses|]; [|intros [= <- _]; eauto].
  destruct (tx ses), (faults w) as [|[e1|] fs]; simpl; intros [= <- _]; eauto.
Qed.

Lemma rde_rollback connection : raises_driver_errors (psycopg2.rollback connection).
Proof.
  intros w e w'. unfold psycopg2.rollback, connection_closed.
  destruct (live_session _ _); intros [= <- _]; eauto.
Qed.

Lemma rde_close connection : raises_driver_errors (psycopg2.close connection).
Proof. intros w e w'. discriminate. Qed.

Lemma rde_read_sql query connection params :
  raises_driver_errors (pd.read_sql query connection params).
Proof.
  intros w e w'. unfold pd.read_sql, next_fault, connection_closed. simpl.
  destruct (live_session _ _) as [ses|]; [|intros [= <- _]; eauto].
  destruct (unencodable _ params); [intros [= <- _]; eauto|].
  destruct (tx ses), (faults w) as [|[e1|] fs]; simpl; intros [= <- _]; eauto.
Qed.

Ltac rde :=
  repeat first
    [ apply rde_ret | apply rde_raise | apply rde_logger_info | apply rde_logger_error
    | apply rde_cursor | apply rde_cursor_close | apply rde_execute
    | apply rde_executemany | apply rde_commit | apply rde_rollback | apply rde_close
    | apply rde_read_sql
    | apply rde_when | apply rde_for_each | apply rde_try_finally | apply rde_try_except
    | apply rde_bind | intro ].

Lemma rde_query_database connection query params close_connection :
  raises_driver_errors (query_database (Some connection) query params close_connection).
Proof. unfold query_database. rde. Qed.

Lemma rde_update_records connection update_query params close_connection :
  raises_driver_errors (update_records (Some connection) update_query params close_connection).
Proof. unfold update_records, with_cursor. rde. Qed.

Lemma rde_create_view connection view_name view_query close_connection :
  raises_driver_errors (create_view (Some connection) view_name view_query close_connection).
Proof. unfold create_view, with_cursor. rde. Qed.

Lemma rde_create_table connection table_name :
  raises_driver_errors (create_table connection table_name).
Proof. unfold create_table. rde. Qed.

Lemma rde_populate_table connection table_name dataframe :
  raises_driver_errors (populate_table connection table_name dataframe).
Proof. unfold populate_table. rde. Qed.

(** ** Configuration *)

(** C6 (the code departs from the claim).  With no configuration entry at
    all, the port is 5432 and the schema is the empty string, but the
    table list is not empty: it holds one name, the empty string. *)
Theorem credentials_without_table_list (py_int : string -> option Z) :
  PostgresCredentials_init py_int ∅ =
    Ok {| host := None; database := None; user := None; password := None;
          port := 5432; schema := ""; tables := [""] |}.
Proof. reflexivity. Qed.

(** Whatever else is configured, an absent [DB_TABLES] gives that list. *)
Lemma tables_of_absent_entry (py_int : string -> option Z)
    (environ : gmap string string) credentials :
  Py.getenv environ "DB_TABLES" = None ->
  PostgresCredentials_init py_int environ = Ok credentials ->
  tables credentials = [""].
Proof.
  unfold PostgresCredentials_init, Py.getenv_default, Py.dict_get, Py.getenv.
  intros ->. destruct (env_port py_int environ); [|discriminate].
  intros [= <-]. reflexivity.
Qed.

(** ** Rendering *)

Lemma sql_type_mapping_unmapped (type_name : string) :
  type_name ∉ sql_type_mapping_items.*1 ->
  Py.dict_get sql_type_mapping type_name "VARCHAR(255)" = "VARCHAR(255)".
Proof.
  intros Hout. unfold Py.dict_get, sql_type_mapping.
  by rewrite (not_elem_of_list_to_map_1 _ _ Hout).
Qed.

Lemma sql_type_mapping_rendered (type_name : string) :
  Py.dict_get sql_type_mapping type_name "VARCHAR(255)" = rendered_type type_name.
Proof.
  unfold rendered_type.
  repeat match goal with
         | |- context [String.eqb type_name ?key] =>
             destruct (String.eqb_spec type_name key) as [->|?]; [reflexivity|]
         end.
  apply sql_type_mapping_unmapped. simpl.
  intros Hin. repeat (apply elem_of_cons in Hin as [Hin|Hin]; [done|]).
  by apply elem_of_nil in Hin.
Qed.

(** C7.  [format_column_details] is a total function.  For every column
    it renders the column name, a space and the type that the fixed
    mapping gives for the reflected type name, type by type: [INTEGER]
    as [INT], [BIGINT], [BOOLEAN], [DATE], [FLOAT] and [SERIAL] as
    themselves, [TEXT] as [VARCHAR(255)], [DOUBLE] as [DOUBLE PRECISION]
    and every other type name as [VARCHAR(255)]; it appends
    [ PRIMARY KEY] exactly for a primary-key column, whatever the type.
    In particular an [INTEGER] column renders as [INT] and a column
    whose type name is not a key of the mapping as [VARCHAR(255)]. *)
Theorem format_column_details_total_mapping (column : Column) :
  format_column_details column =
    (if primary_key column
     then (column_name column +:+ " " +:+ rendered_type (column_type column))
            +:+ " PRIMARY KEY"
     else column_name column +:+ " " +:+ rendered_type (column_type column)) /\
  (column_type column = "INTEGER" ->
   format_column_details column =
     if primary_key column
     then (column_name column +:+ " INT") +:+ " PRIMARY KEY"
     else column_name column +:+ " INT") /\
  (column_type column ∉ sql_type_mapping_items.*1 ->
   format_column_details column =
     if primary_key column
     then (column_name column +:+ " VARCHAR(255)") +:+ " PRIMARY KEY"
     else column_name column +:+ " VARCHAR(255)").
Proof.
  unfold format_column_details. split_and!.
  - by rewrite sql_type_mapping_rendered.
  - intros ->. reflexivity.
  - intros Hout. by rewrite (sql_type_mapping_unmapped _ Hout).
Qed.

Lemma format_column_details_total_mapping_witness :
  format_column_details
    {| column_name := "id"; column_type := "INTEGER"; primary_key := true |}
    = "id INT PRIMARY KEY" /\
  format_column_details
    {| column_name := "payload"; column_type := "JSONB"; primary_key := false |}
    = "payload VARCHAR(255)" /\
  format_column_details
    {| column_name := "big"; column_type := "BIGINT"; primary_key := true |}
    = "big BIGINT PRIMARY KEY".
Proof.
  split_and!.
  - apply (format_column_details_total_mapping
             {| column_name := "id"; column_type := "INTEGER"; primary_key := true |}).
    reflexivity.
  - apply (format_column_details_total_mapping
             {| column_name := "payload"; column_type := "JSONB"; primary_key := false |}).
    vm_compute. intros Hin. repeat (apply elem_of_cons in Hin as [Hin|Hin]; [discriminate|]).
    by apply elem_of_nil in Hin.
  - apply (format_column_details_total_mapping
             {| column_name := "big"; column_type := "BIGINT"; primary_key := true |}).
Defined.

(** ** The metadata cache *)

Lemma reflect_all_world schema tables metadata w r w' :
  reflect_all schema tables metadata w = (r, w') -> w' = w.
Proof.
  revert metadata. induction tables as [|table rest IH]; intros metadata; simpl.
  - unfold ret. congruence.
  - unfold bind, metadata_reflect.
    destruct (reflect w schema table metadata) as [e|metadata'].
    + congruence.
    + apply IH.
Qed.

(** C4.  [refresh_metadata_cache] never raises.  When the reflection of
    some configured table fails, the object is returned as it was (the
    snapshot it held, if any, included) and the failure is logged; the
    snapshot is replaced only when every table was reflected, and then by
    the freshly reflected metadata as a whole. *)
Theorem refresh_metadata_cache_best_effort (self : MetadataCache) (w : World) :
  match reflect_all (mc_schema self) (mc_tables self) {| metadata_tables := [] |} w with
  | (Raise e, _) =>
      refresh_metadata_cache self w =
        (Ok self, record_log (LogError "Error refreshing metadata cache: " e) w)
  | (Ok metadata, _) =>
      refresh_metadata_cache self w =
        (Ok {| mc_schema := mc_schema self; mc_tables := mc_tables self;
               metadata_cache := Some metadata |},
         record_log (LogInfo "Metadata cache refreshed.") w)
  end.
Proof.
  unfold refresh_metadata_cache, try_except, bind.
  destruct (reflect_all _ _ _ w) as [[metadata|e] w1] eqn:Hall;
    apply reflect_all_world in Hall as ->; reflexivity.
Qed.

(** ** Opening a connection *)

(** C5 (the code departs from the claim).  When the session is
    established and the search-path statement then fails, here because
    the configured schema cannot be encoded for the connection,
    [_get_connection] raises [ConnectionError] from the error without
    closing the session: the session it opened is still open, and no
    [close] was called. *)
Theorem get_connection_leaves_session_open
    (credentials : PostgresCredentials) (w : World) :
  truthy (schema credentials) = true ->
  (next_fault w).1 = None ->
  encodes w (schema credentials) = false ->
  exists w',
    _get_connection credentials w
      = (Raise (ConnectionError
                  (Wrapping (DriverError (UnicodeEncodeError (schema credentials))))),
         w') /\
    sessions w' !! List.length (sessions w) = Some {| closed := false; tx := Idle |} /\
    journal w' =
      journal w ++ [CallConnect;
                    CallCursor (List.length (sessions w));
                    CallExecute (List.length (sessions w)) SetSearchPath
                      (Some [schema credentials]);
                    CallCursorClose (List.length (sessions w))].
Proof.
  intros Hschema Hconnect Hencodes.
  unfold _get_connection, psycopg2.connect. unfold_driver.
  unfold next_fault in Hconnect. simpl.
  destruct (faults w) as [|[e|] plan] eqn:Hplan; simpl in Hconnect; try discriminate;
    rewrite Hschema;
    repeat (progress (simpl; rewrite ?list_lookup_middle, ?Hencodes by done));
    (eexists; split_and!; [reflexivity| |]);
    simpl; rewrite ?list_lookup_middle by done; try reflexivity;
    by rewrite <- !app_assoc.
Qed.

Lemma get_connection_leaves_session_open_witness :
  let w := example_world ∅ [] in
  let credentials := example_credentials example_schema in
  exists w',
    _get_connection credentials w
      = (Raise (ConnectionError
                  (Wrapping (DriverError (UnicodeEncodeError (schema credentials))))),
         w') /\
    sessions w' !! List.length (sessions w) = Some {| closed := false; tx := Idle |} /\
    journal w' =
      journal w ++ [CallConnect;
                    CallCursor (List.length (sessions w));
                    CallExecute (List.length (sessions w)) SetSearchPath
                      (Some [schema credentials]);
                    CallCursorClose (List.length (sessions w))].
Proof.
  intros w credentials.
  apply (get_connection_leaves_session_open credentials w); vm_compute; reflexivity.
Defined.

(** ** Queries *)

(** C10.  Called without a connection, [query_database], [update_records]
    and [create_view] raise [ConnectionError] and leave the world as it
    is: no driver call is journalled, no session or transaction changes,
    nothing is logged. *)
Theorem absent_connection_raises_immediately
    (query view_name : string) (params : option (list string))
    (close_connection : bool) (w : World) :
  query_database None query params close_connection w
    = (Raise (ConnectionError (Message "No connection to database.")), w) /\
  update_records None query params close_connection w
    = (Raise (ConnectionError (Message "No connection to database.")), w) /\
  create_view None view_name query close_connection w
    = (Raise (ConnectionError (Message "No connection to database.")), w).
Proof. repeat split. Qed.

(** C9.  After [query_database] with [close_connection] true, on a
    connection that exists, the session is closed and [close] was the
    last driver call, whether the query succeeded or failed. *)
Theorem query_database_always_closes
    connection query params (w : World) r w' ses :
  sessions w !! connection = Some ses ->
  query_database (Some connection) query params true w = (r, w') ->
  (exists ses', sessions w' !! connection = Some ses' /\ closed ses' = true) /\
  last (journal w') = Some (CallClose connection).
Proof.
  intros Hses. unfold query_database. unfold_driver. simpl. rewrite Hses.
  destruct (closed ses); simpl; try destruct (unencodable _ _);
    destruct (tx ses), (faults w) as [|[e|] fs]; simpl;
    intros [= <- <-]; simpl; rewrite ?last_snoc;
    (split; [|reflexivity]); rewrite list_lookup_alter_eq; simpl;
    rewrite ?list_lookup_alter_eq, Hses; simpl; eauto.
Qed.

Lemma query_database_always_closes_witness :
  let out := query_database (Some 0) "SELEC 1" None true
               (example_world ∅ [Some (SyntaxError "SELEC 1")]) in
  out.1 = Raise (DriverError (PandasDatabaseError (SyntaxError "SELEC 1"))) /\
  ((exists ses', sessions out.2 !! 0 = Some ses' /\ closed ses' = true) /\
   last (journal out.2) = Some (CallClose 0)).
Proof.
  split; [reflexivity|].
  apply (query_database_always_closes 0 "SELEC 1" None
           (example_world ∅ [Some (SyntaxError "SELEC 1")])
           (Raise (DriverError (PandasDatabaseError (SyntaxError "SELEC 1")))) _
           {| closed := false; tx := Idle |});
    reflexivity.
Defined.

(** ** Updates and views *)

Ltac not_in_journal :=
  let H := fresh in
  intros H; repeat (apply elem_of_cons in H as [H|H]; [discriminate|]);
  by apply elem_of_nil in H.

(** The case analysis behind C8: the state of the transaction on entry,
    the server's verdict on the statement and on the commit, the flag. *)
Ltac discipline ses w flag Hses Hopen :=
  let Htx := fresh "Htx" in
  let Hf := fresh "Hf" in
  destruct (tx ses) eqn:Htx, (faults w) as [|[?|] [|[?|] ?]] eqn:Hf;
  repeat (progress (simpl; rewrite ?list_lookup_alter_eq, ?Hses, ?Hopen, ?Htx, ?Hf));
  destruct flag;
  repeat (progress (simpl; rewrite ?list_lookup_alter_eq, ?Hses, ?Hopen, ?Htx, ?Hf));
  intros [= <- <-]; unfold transaction_discipline, current_view;
  repeat (progress (simpl; rewrite ?list_lookup_alter_eq, ?Hses, ?Hopen, ?Htx,
                      <- ?(assoc_L (++))));
  (split; [eexists; split_and!; reflexivity|]);
  (split; [reflexivity|]);
  first [ reflexivity
        | eexists [_; _; _]; split; [reflexivity|]; split; not_in_journal
        | eexists [_; _; _; _]; split; [reflexivity|]; split; not_in_journal ].

Lemma update_records_discipline
    connection ses update_query params close_connection (w : World) r w' :
  live_session connection w = Some ses ->
  update_records (Some connection) update_query params close_connection w = (r, w') ->
  transaction_discipline connection ses update_query params close_connection w r w'.
Proof.
  intros [Hses Hopen]%lookup_live.
  unfold update_records. unfold_driver. simpl. rewrite Hses, Hopen.
  rewrite !unencodable_record_call. destruct (unencodable w params) eqn:Hencode.
  - discipline ses w close_connection Hses Hopen.
  - discipline ses w close_connection Hses Hopen.
Qed.

Lemma create_view_discipline
    connection ses view_name view_query close_connection (w : World) r w' :
  live_session connection w = Some ses ->
  create_view (Some connection) view_name view_query close_connection w = (r, w') ->
  transaction_discipline connection ses
    ("CREATE OR REPLACE VIEW " +:+ view_name +:+ " AS " +:+ view_query) None
    close_connection w r w'.
Proof.
  intros [Hses Hopen]%lookup_live.
  unfold create_view. unfold_driver. simpl. rewrite Hses, Hopen.
  discipline ses w close_connection Hses Hopen.
Qed.

(** C8.  On a live connection, [update_records] and [create_view] keep
    the same discipline.  On success the statement's effect is committed;
    on a failure the transaction is rolled back (nothing of it is
    committed, and [rollback] is the last call before the optional
    [close]) and an exception is raised; in both outcomes no transaction
    is left open and the session is closed exactly when
    [close_connection] is true. *)
Theorem update_and_view_transaction_discipline
    connection ses close_connection (w : World) :
  live_session connection w = Some ses ->
  (forall update_query params r w',
      update_records (Some connection) update_query params close_connection w = (r, w') ->
      transaction_discipline connection ses update_query params close_connection w r w') /\
  (forall view_name view_query r w',
      create_view (Some connection) view_name view_query close_connection w = (r, w') ->
      transaction_discipline connection ses
        ("CREATE OR REPLACE VIEW " +:+ view_name +:+ " AS " +:+ view_query) None
        close_connection w r w').
Proof.
  intros Hlive. split.
  - intros update_query params r w'. by apply update_records_discipline.
  - intros view_name view_query r w'. by apply create_view_discipline.
Qed.

Lemma update_and_view_transaction_discipline_witness :
  let w := example_world ∅ [Some (SyntaxError "UPDATE t SET")] in
  let ses := {| closed := false; tx := Idle |} in
  let failed := update_records (Some 0) "UPDATE t SET" None false w in
  let created := create_view (Some 0) "v" "SELECT 1" true (example_world ∅ []) in
  failed.1 = Raise (DriverError (SyntaxError "UPDATE t SET")) /\
  transaction_discipline 0 ses "UPDATE t SET" None false w failed.1 failed.2 /\
  created.1 = Ok tt /\
  transaction_discipline 0 ses "CREATE OR REPLACE VIEW v AS SELECT 1" None true
    (example_world ∅ []) created.1 created.2.
Proof.
  intros w ses failed created. split_and!.
  - vm_compute; reflexivity.
  - apply (proj1 (update_and_view_transaction_discipline 0 ses false w eq_refl)).
    vm_compute; reflexivity.
  - vm_compute; reflexivity.
  - apply (proj2 (update_and_view_transaction_discipline 0 ses true
                    (example_world ∅ []) eq_refl) "v" "SELECT 1").
    vm_compute; reflexivity.
Defined.

(** ** Provisioning *)

Lemma add_column_columns col t :
  columns (add_column col t) = columns t ++ (if bool_decide (col ∈ columns t) then [] else [col]).
Proof.
  unfold add_column. destruct (bool_decide (col ∈ columns t)); simpl; [|done].
  by rewrite app_nil_r.
Qed.

Lemma add_columns_spec cols t :
  columns t `prefix_of` columns (add_columns cols t) /\
  list_to_set (columns (add_columns cols t)) =@{gset string}
    list_to_set (columns t) ∪ list_to_set cols /\
  rows (add_columns cols t) = rows t.
Proof.
  unfold add_columns. revert t. induction cols as [|col rest IH]; intros t; simpl.
  - split_and!; [done | by rewrite (right_id_L ∅ (∪)) | done].
  - destruct (IH (add_column col t)) as (Hpre & Hset & Hrows).
    rewrite add_column_columns in Hpre, Hset. split_and!.
    + etrans; [|exact Hpre]. by apply prefix_app_r.
    + rewrite Hset, list_to_set_app_L.
      case_bool_decide as Hin; simpl; rewrite (right_id_L ∅ (∪)), (assoc_L (∪)); [|done].
      apply (elem_of_list_to_set (C := gset string)) in Hin.
      f_equal. symmetry. rewrite (comm_L (∪)).
      by apply subseteq_union_1_L, singleton_subseteq_l.
    + rewrite Hrows. unfold add_column. by destruct (bool_decide _).
Qed.

Lemma insert_rows_spec cols values t :
  columns (insert_rows cols values t) = columns t /\
  rows t `prefix_of` rows (insert_rows cols values t).
Proof.
  unfold insert_rows. revert t. induction values as [|row rest IH]; intros t; simpl.
  - done.
  - destruct (IH (insert_row cols row t)) as [Hcols Hrows]. split; [done|].
    etrans; [|exact Hrows]. simpl. by apply prefix_app_r.
Qed.






Lemma add_column_loop_journal connection table_name cols w w' :
  for_each cols
    (fun col => psycopg2.execute connection
                  (AlterTableAddColumnIfNotExists table_name col) None) w = (Ok tt, w') ->
  journal w' = journal w ++ add_column_calls connection table_name cols.
Proof.
  revert w. induction cols as [|col rest IH]; intros w; simpl.
  - intros [= <-]. by rewrite app_nil_r.
  - intros ([] & w1 & Hexec & Hrest)%bind_Ok_inv.
    rewrite (IH _ Hrest). unfold psycopg2.execute in Hexec.
    apply run_statement_frame in Hexec as (_ & -> & _). simpl.
    by rewrite <- app_assoc.
Qed.






(** C3, as the claim states it, fails: with the columns [a] and [b c] the
    second ADD COLUMN is a syntax error; the first one was executed, yet
    the committed table has no column [a]. *)
Lemma added_columns_are_not_committed : ~ added_columns_stay_committed.
Proof.
  intros Hclaim.
  set (w := example_world {[ "t1" := empty_table ]}
              [None;
               Some (SyntaxError "ALTER TABLE t1 ADD COLUMN IF NOT EXISTS b c TEXT;")]).
  destruct (Hclaim 0 "t1" ["a"] "b c" [] [["x"; "y"]] w
              (DriverError (SyntaxError "ALTER TABLE t1 ADD COLUMN IF NOT EXISTS b c TEXT;"))
              (populate_table 0 "t1"
                 {| df_columns := ["a"; "b c"]; df_values := [["x"; "y"]] |} w).2
              eq_refl eq_refl "a") as (t & Ht & Hin).
  - apply elem_of_cons. by left.
  - vm_compute in Ht. injection Ht as <-. by apply elem_of_nil in Hin.
Qed.

(** C3, as amended.  [populate_table] sends one ADD COLUMN statement per
    column of the dataset, each as a statement of its own and in the
    order of the dataset, then the insert, and commits once, after the
    insert; when the call fails, whatever the point of failure, the
    committed state of the server is what it was before the call, so no
    column added before the failure is kept. *)
Theorem populate_table_commits_once connection table_name dataframe w :
  match populate_table connection table_name dataframe w with
  | (Ok _, w') =>
      journal w' =
        journal w ++ CallCursor connection
          :: add_column_calls connection table_name (df_columns dataframe)
          ++ [CallExecuteMany connection
                (InsertInto table_name (df_columns dataframe)) (df_values dataframe);
              CallCommit connection;
              CallCursorClose connection]
  | (Raise _, w') => committed w' = committed w
  end.
Proof.
  destruct (populate_table connection table_name dataframe w) as [[[]|e] w'] eqn:Hcall.
  - apply try_except_reraise_Ok in Hcall.
    apply bind_Ok_inv in Hcall as (cursor & w1 & Hcursor & Hcall).
    apply bind_Ok_inv in Hcall as ([] & w2 & Hloop & Hcall).
    apply bind_Ok_inv in Hcall as ([] & w3 & Hmany & Hcall).
    apply bind_Ok_inv in Hcall as ([] & w4 & Hcommit & Hcall).
    apply bind_Ok_inv in Hcall as ([] & w5 & Hclose & Hlog).
    unfold psycopg2.cursor in Hcursor.
    destruct (live_session connection (record_call _ w)); [|discriminate].
    injection Hcursor as <- <-. injection Hlog as <-. injection Hclose as <-.
    apply add_column_loop_journal in Hloop. apply executemany_frame in Hmany as [_ Hmany].
    apply commit_journal in Hcommit. simpl.
    rewrite Hcommit, Hmany, Hloop. simpl. rewrite <- !app_assoc. done.
  - apply try_except_reraise_Raise in Hcall as (w1 & Hbody & ->). simpl.
    apply bind_Raise_inv in Hbody as [Hcursor|(cursor & w2 & Hcursor & Hbody)];
      unfold psycopg2.cursor in Hcursor;
      destruct (live_session connection (record_call _ w)); try discriminate.
    { by injection Hcursor as <- <-. }
    injection Hcursor as <- <-.
    apply bind_Raise_inv in Hbody as [Hloop|([] & w3 & Hloop & Hbody)];
      apply (statements_keep_committed _ _ _
               (fun col => record_call (CallExecute connection
                  (AlterTableAddColumnIfNotExists table_name col) None))) in Hloop;
      try done.
    apply bind_Raise_inv in Hbody as [Hmany|([] & w4 & Hmany & Hbody)];
      apply executemany_frame in Hmany as [Hmany _].
    { by rewrite Hmany, Hloop. }
    apply bind_Raise_inv in Hbody as [Hcommit|([] & w5 & Hcommit & Hbody)].
    { apply commit_Raise_committed in Hcommit. by rewrite Hcommit, Hmany, Hloop. }
    apply bind_Raise_inv in Hbody as [Hclose|([] & w6 & Hclose & Hlog)]; discriminate.
Qed.

(** * Further properties of the module *)

(** ** Splitting and joining *)

Lemma split_nonempty sep s : Py.split sep s <> [].
Proof.
  destruct s as [|ch s']; simpl; [done|].
  destruct (Ascii.eqb ch sep); [done|]. by destruct (Py.split sep s').
Qed.

Lemma join_cons sep piece pieces :
  pieces <> [] ->
  Py.join sep (piece :: pieces) = piece +:+ sep +:+ Py.join sep pieces.
Proof. by destruct pieces. Qed.

Lemma join_split sep s : Py.join (String sep EmptyString) (Py.split sep s) = s.
Proof.
  induction s as [|ch s' IH]; simpl; [done|].
  destruct (Ascii.eqb ch sep) eqn:Hch.
  - apply Ascii.eqb_eq in Hch as ->.
    rewrite join_cons by apply split_nonempty. simpl. by rewrite IH.
  - destruct (Py.split sep s') as [|piece pieces] eqn:Hsplit.
    + by destruct (split_nonempty sep s').
    + destruct pieces as [|next pieces]; simpl in *; by rewrite <- IH.
Qed.

Lemma split_pieces_without_separator sep s :
  Forall (fun piece => ~ In sep (list_ascii_of_string piece)) (Py.split sep s).
Proof.
  induction s as [|ch s' IH]; simpl.
  - constructor; [|constructor]. simpl. tauto.
  - destruct (Ascii.eqb ch sep) eqn:Hch.
    + constructor; [simpl; tauto | exact IH].
    + apply Ascii.eqb_neq in Hch.
      destruct (Py.split sep s') as [|piece pieces]; simpl.
      * constructor; [|constructor]. simpl. intros [?|[]]. congruence.
      * inversion IH as [|? ? Hpiece Hpieces]; subst.
        constructor; [|exact Hpieces]. simpl. intros [?|?]; [congruence|tauto].
Qed.

(** ** Configuration, continued *)

(** X1.  Whatever the environment, the table list of a constructed
    configuration is never empty, joining it with commas gives back the
    value of [DB_TABLES] (the empty string when it is absent), and no
    table name contains a comma. *)
Theorem credentials_tables_round_trip
    (py_int : string -> option Z) (environ : gmap string string) credentials :
  PostgresCredentials_init py_int environ = Ok credentials ->
  tables credentials <> [] /\
  Py.join "," (tables credentials) = Py.getenv_default environ "DB_TABLES" "" /\
  Forall (fun name => ~ In ","%char (list_ascii_of_string name)) (tables credentials).
Proof.
  unfold PostgresCredentials_init.
  destruct (env_port py_int environ); [|discriminate]. intros [= <-]. simpl.
  split_and!.
  - apply split_nonempty.
  - apply join_split.
  - apply split_pieces_without_separator.
Qed.

Lemma credentials_tables_round_trip_witness :
  let environ : gmap string string := {[ "DB_TABLES" := "users,orders" ]} in
  ["users"; "orders"] <> [] /\
  Py.join "," ["users"; "orders"] = Py.getenv_default environ "DB_TABLES" "" /\
  Forall (fun name => ~ In ","%char (list_ascii_of_string name)) ["users"; "orders"].
Proof.
  intros environ.
  apply (credentials_tables_round_trip (fun _ => None) environ
           {| host := None; database := None; user := None; password := None;
              port := 5432; schema := ""; tables := ["users"; "orders"] |}).
  vm_compute; reflexivity.
Defined.

(** ** Opening a connection, continued *)

Lemma alter_snoc {A} (f : A -> A) (l : list A) (x : A) :
  alter f (List.length l) (l ++ [x]) = l ++ [f x].
Proof. rewrite alter_app_r_alt by done. by rewrite Nat.sub_diag. Qed.

Ltac unfold_get_connection :=
  unfold _get_connection, psycopg2.connect; unfold_driver.

Ltac get_connection_cases credentials w :=
  let Hplan := fresh "Hplan" in
  let Hschema := fresh "Hschema" in
  let Hencode := fresh "Hencode" in
  unfold_get_connection; unfold unencodable;
  destruct (faults w) as [|[?|] [|[?|] ?]] eqn:Hplan,
           (truthy (schema credentials)) eqn:Hschema,
           (encodes w (schema credentials)) eqn:Hencode;
  repeat (progress (simpl; rewrite ?Hplan, ?Hschema, ?Hencode, ?list_lookup_middle by done));
  rewrite ?list_lookup_alter_eq, ?alter_snoc.




(** X4.  When [_get_connection] returns, the connection is a new session,
    added after the existing ones, which are untouched; it is open;
    without a configured schema it is outside a transaction and only
    [connect] was called, with a schema the search-path statement has
    opened a transaction that is not committed.  Nothing is committed. *)
Theorem get_connection_returns_new_session
    (credentials : PostgresCredentials) (w : World) connection w' :
  _get_connection credentials w = (Ok connection, w') ->
  connection = List.length (sessions w) /\
  sessions w' =
    sessions w ++ [{| closed := false;
                      tx := if truthy (schema credentials)
                            then Active (committed w) else Idle |}] /\
  committed w' = committed w /\
  (truthy (schema credentials) = false -> journal w' = journal w ++ [CallConnect]).
Proof.
  get_connection_cases credentials w; intros [= <- <-]; simpl;
    split_and!; try reflexivity; try discriminate.
Qed.

Lemma get_connection_returns_new_session_witness :
  let w := example_world ∅ [] in
  let out := _get_connection (example_credentials "public") w in
  1 = List.length (sessions w) /\
  sessions out.2 =
    sessions w ++ [{| closed := false;
                      tx := if truthy (schema (example_credentials "public"))
                            then Active (committed w) else Idle |}] /\
  committed out.2 = committed w /\
  (truthy (schema (example_credentials "public")) = false ->
   journal out.2 = journal w ++ [CallConnect]).
Proof.
  intros w out.
  apply (get_connection_returns_new_session (example_credentials "public") w 1 out.2).
  vm_compute; reflexivity.
Defined.



(** ** Queries, continued *)

Ltac query_cases connection w ses params Hses :=
  let Hclosed := fresh "Hclosed" in
  let Hencode := fresh "Hencode" in
  let Htx := fresh "Htx" in
  let Hplan := fresh "Hplan" in
  unfold query_database; unfold_driver; simpl; rewrite ?Hses;
  destruct (closed ses) eqn:Hclosed; simpl; rewrite ?unencodable_record_call;
  destruct (unencodable w params) eqn:Hencode, (tx ses) eqn:Htx,
           (faults w) as [|[?|] ?] eqn:Hplan;
  repeat (progress (simpl; rewrite ?list_lookup_alter_eq, ?Hses, ?Hclosed, ?Htx, ?Hplan)).

(** X5.  [query_database] never commits: whatever the outcome and the
    flag, the committed state of the server is the one before the call.
    When it returns a DataFrame, the connection was live, the DataFrame
    is the engine's answer on what the connection saw, and the session
    is left closed when [close_connection] is true and otherwise open,
    inside the transaction the query has opened. *)
Theorem query_database_reads_only
    connection query params close_connection (w : World) ses r w' :
  sessions w !! connection = Some ses ->
  query_database (Some connection) query params close_connection w = (r, w') ->
  committed w' = committed w /\
  match r with
  | Ok df =>
      closed ses = false /\
      df = raw_select w query params (current_view ses w) /\
      sessions w' !! connection =
        Some (if close_connection
              then {| closed := true; tx := Idle |}
              else {| closed := false; tx := Active (current_view ses w) |})
  | Raise _ => True
  end.
Proof.
  intros Hses. query_cases connection w ses params Hses;
    destruct close_connection; simpl; intros [= <- <-]; simpl;
    rewrite ?list_lookup_alter_eq, ?Hses; simpl;
    rewrite ?list_lookup_alter_eq, ?Hses; simpl;
    unfold current_view; rewrite ?Htx, ?Hclosed; split_and!; done.
Qed.

Lemma query_database_reads_only_witness :
  let w := example_world {[ "t1" := empty_table ]} [] in
  let out := query_database (Some 0) "SELECT * FROM t1" None false w in
  committed out.2 = committed w /\
  match out.1 with
  | Ok df =>
      false = false /\
      df = raw_select w "SELECT * FROM t1" None (committed w) /\
      sessions out.2 !! 0 = Some {| closed := false; tx := Active (committed w) |}
  | Raise _ => True
  end.
Proof.
  intros w out.
  apply (query_database_reads_only 0 "SELECT * FROM t1" None false w
           {| closed := false; tx := Idle |} out.1 out.2);
    vm_compute; reflexivity.
Defined.

Lemma query_database_failure_log
    connection query params close_connection (w : World) ses e w' :
  sessions w !! connection = Some ses ->
  query_database (Some connection) query params close_connection w = (Raise e, w') ->
  logged w' =
    logged w ++ LogError "Query execution error: " e
      :: (if close_connection then [LogInfo "Database connection closed."] else []).
Proof.
  intros Hses. query_cases connection w ses params Hses;
    destruct close_connection; simpl; intros [= <- <-]; simpl;
    by rewrite <- ?app_assoc.
Qed.

(** X6.  A failure of [query_database] is logged once, with the very
    exception that is raised, before the close is logged. *)
Theorem query_database_logs_failure
    connection query params close_connection (w : World) ses e w' :
  sessions w !! connection = Some ses ->
  query_database (Some connection) query params close_connection w = (Raise e, w') ->
  logged w' =
    logged w ++ LogError "Query execution error: " e
      :: (if close_connection then [LogInfo "Database connection closed."] else []).
Proof. apply query_database_failure_log. Qed.

Lemma query_database_logs_failure_witness :
  let w := example_world ∅ [Some (SyntaxError "SELEC 1")] in
  let out := query_database (Some 0) "SELEC 1" None true w in
  logged out.2 =
    logged w ++ LogError "Query execution error: "
                  (DriverError (PandasDatabaseError (SyntaxError "SELEC 1")))
      :: [LogInfo "Database connection closed."].
Proof.
  intros w out.
  apply (query_database_logs_failure 0 "SELEC 1" None true w
           {| closed := false; tx := Idle |}
           (DriverError (PandasDatabaseError (SyntaxError "SELEC 1"))) out.2);
    vm_compute; reflexivity.
Defined.

(** ** Updates and views, continued *)

Ltac mutation_cases connection w ses params flag Hses :=
  let Hclosed := fresh "Hclosed" in
  let Hencode := fresh "Hencode" in
  let Htx := fresh "Htx" in
  let Hplan := fresh "Hplan" in
  unfold_driver; simpl; rewrite ?Hses;
  destruct (closed ses) eqn:Hclosed; simpl; rewrite ?unencodable_record_call;
  destruct (unencodable w params) eqn:Hencode, (tx ses) eqn:Htx,
           (faults w) as [|[?|] [|[?|] ?]] eqn:Hplan;
  repeat (progress (simpl; rewrite ?list_lookup_alter_eq, ?Hses, ?Hclosed, ?Htx, ?Hplan));
  destruct flag;
  repeat (progress (simpl; rewrite ?list_lookup_alter_eq, ?Hses, ?Hclosed, ?Htx, ?Hplan)).

Lemma update_and_view_failure_log connection ses close_connection (w : World) :
  live_session connection w = Some ses ->
  (forall update_query params e w',
      update_records (Some connection) update_query params close_connection w = (Raise e, w') ->
      logged w' =
        logged w ++ LogError "Update query execution error: " e
          :: (if close_connection then [LogInfo "Database connection closed."] else [])) /\
  (forall view_name view_query e w',
      create_view (Some connection) view_name view_query close_connection w = (Raise e, w') ->
      logged w' =
        logged w ++ LogError ("Error creating view '" +:+ view_name +:+ "': ") e
          :: (if close_connection then [LogInfo "Database connection closed."] else [])).
Proof.
  intros [Hses Hopen]%lookup_live. split.
  - intros update_query params e w'. unfold update_records.
    mutation_cases connection w ses params close_connection Hses; try discriminate;
      intros [= <- <-]; simpl; by rewrite <- ?app_assoc.
  - intros view_name view_query e w'. unfold create_view.
    mutation_cases connection w ses (@None (list string)) close_connection Hses;
      try discriminate; intros [= <- <-]; simpl; by rewrite <- ?app_assoc.
Qed.

(** X7.  On a live connection, a failure of [update_records] or of
    [create_view] is logged once, with the very exception that is
    raised, before the close is logged. *)
Theorem update_and_view_log_failure connection ses close_connection (w : World) :
  live_session connection w = Some ses ->
  (forall update_query params e w',
      update_records (Some connection) update_query params close_connection w = (Raise e, w') ->
      logged w' =
        logged w ++ LogError "Update query execution error: " e
          :: (if close_connection then [LogInfo "Database connection closed."] else [])) /\
  (forall view_name view_query e w',
      create_view (Some connection) view_name view_query close_connection w = (Raise e, w') ->
      logged w' =
        logged w ++ LogError ("Error creating view '" +:+ view_name +:+ "': ") e
          :: (if close_connection then [LogInfo "Database connection closed."] else [])).
Proof. apply update_and_view_failure_log. Qed.

Lemma update_and_view_log_failure_witness :
  let w := example_world ∅ [Some (SyntaxError "UPDATE t SET")] in
  let out := update_records (Some 0) "UPDATE t SET" None true w in
  logged out.2 =
    logged w ++ LogError "Update query execution error: "
                  (DriverError (SyntaxError "UPDATE t SET"))
      :: [LogInfo "Database connection closed."].
Proof.
  intros w out.
  apply (proj1 (update_and_view_log_failure 0 {| closed := false; tx := Idle |} true w
                  eq_refl)
           "UPDATE t SET" None (DriverError (SyntaxError "UPDATE t SET")) out.2).
  vm_compute; reflexivity.
Defined.

(** X8.  On a connection that is already closed, [update_records] and
    [create_view] raise the driver's connection-closed error, and the
    error is not logged: the rollback of the handler fails before the
    handler logs.  Nothing is committed, and only the close is logged. *)
Theorem update_and_view_on_closed_connection connection ses close_connection (w : World) :
  sessions w !! connection = Some ses ->
  closed ses = true ->
  (forall update_query params,
      exists w',
        update_records (Some connection) update_query params close_connection w
          = (Raise connection_closed, w') /\
        committed w' = committed w /\
        logged w' =
          logged w ++ (if close_connection then [LogInfo "Database connection closed."]
                       else [])) /\
  (forall view_name view_query,
      exists w',
        create_view (Some connection) view_name view_query close_connection w
          = (Raise connection_closed, w') /\
        committed w' = committed w /\
        logged w' =
          logged w ++ (if close_connection then [LogInfo "Database connection closed."]
                       else [])).
Proof.
  intros Hses Hclosed. split.
  - intros update_query params. unfold update_records. unfold_driver. simpl.
    repeat (progress (simpl; rewrite ?Hses, ?Hclosed)).
    destruct close_connection; simpl;
      eexists; split_and!; try reflexivity; simpl; by rewrite ?app_nil_r.
  - intros view_name view_query. unfold create_view. unfold_driver. simpl.
    repeat (progress (simpl; rewrite ?Hses, ?Hclosed)).
    destruct close_connection; simpl;
      eexists; split_and!; try reflexivity; simpl; by rewrite ?app_nil_r.
Qed.

Lemma update_and_view_on_closed_connection_witness :
  let w := set_sessions [{| closed := true; tx := Idle |}] (example_world ∅ []) in
  exists w',
    update_records (Some 0) "UPDATE t SET a = 1" None true w
      = (Raise connection_closed, w') /\
    committed w' = committed w /\
    logged w' = logged w ++ [LogInfo "Database connection closed."].
Proof.
  intros w.
  apply (proj1 (update_and_view_on_closed_connection 0 {| closed := true; tx := Idle |}
                  true w eq_refl eq_refl)).
Defined.

(** ** Rendering, continued *)

(** X17.  Whatever the reflected type name, [format_column_details]
    renders the column as its name, a space and one of the eight SQL
    type names of the mapping ([VARCHAR(255)] being also the fallback),
    followed by [ PRIMARY KEY] exactly for a primary-key column. *)
Theorem format_column_details_shape (column : Column) :
  exists sql_type,
    sql_type ∈ ["INT"; "BIGINT"; "VARCHAR(255)"; "BOOLEAN"; "DATE"; "FLOAT";
                "DOUBLE PRECISION"; "SERIAL"] /\
    format_column_details column =
      if primary_key column
      then (column_name column +:+ " " +:+ sql_type) +:+ " PRIMARY KEY"
      else column_name column +:+ " " +:+ sql_type.
Proof.
  unfold format_column_details, Py.dict_get.
  destruct (sql_type_mapping !! column_type column) as [sql_type|] eqn:Hget.
  - exists sql_type. split; [|reflexivity].
    apply elem_of_list_to_map_2 in Hget.
    apply (list_elem_of_fmap_2 snd) in Hget. exact Hget.
  - exists "VARCHAR(255)". split; [|reflexivity].
    apply elem_of_cons. right. apply elem_of_cons. right. apply elem_of_cons. by left.
Qed.

(** ** Provisioning, continued *)

Lemma bind_Ok_intro {A B} (m : M A) (k : A -> M B) w a w1 :
  m w = (Ok a, w1) -> bind m k w = k a w1.
Proof. unfold bind. by intros ->. Qed.

Lemma next_fault_none (w : World) :
  Forall (fun f => f = None) (faults w) ->
  exists w',
    next_fault w = (None, w') /\
    Forall (fun f => f = None) (faults w') /\
    sessions w' = sessions w /\ committed w' = committed w /\
    journal w' = journal w /\ logged w' = logged w /\ raw_sql w' = raw_sql w /\
    identifier w' = identifier w /\ encodes w' = encodes w.
Proof.
  unfold next_fault. destruct (faults w) as [|f plan] eqn:Hplan.
  - intros _. exists w. by rewrite Hplan.
  - intros Hnone. inversion Hnone as [|? ? -> Hrest]; subst. eexists. split_and!; done.
Qed.

(** A statement that the driver can send and the engine accepts, on a
    connection that serves. *)
Lemma run_statement_succeeds connection s params (w : World) ses d :
  live_session connection w = Some ses ->
  tx ses <> Failed ->
  Forall (fun f => f = None) (faults w) ->
  unencodable w params = None ->
  engine (raw_sql w) (identifier w) s params (current_view ses w) = inr d ->
  exists w',
    run_statement connection s params w = (Ok tt, w') /\
    live_session connection w' = Some {| closed := false; tx := Active d |} /\
    Forall (fun f => f = None) (faults w') /\
    committed w' = committed w /\ raw_sql w' = raw_sql w /\
    identifier w' = identifier w /\ encodes w' = encodes w.
Proof.
  intros Hlive Htx Hplan Hencode Hengine. unfold run_statement.
  rewrite Hlive, Hencode.
  destruct (next_fault_none w Hplan)
    as (w1 & -> & Hplan1 & Hs & Hc & Hj & Hl & Hr & Hi & He).
  rewrite Hengine.
  assert (live_session connection w1 = Some ses) as Hlive1.
  { unfold live_session in *. by rewrite Hs. }
  destruct (tx ses); [| |done];
    (eexists; split_and!; [reflexivity| |done..]);
    by apply (live_session_set_tx _ _ _ ses).
Qed.

Lemma serves_after connection (w : World) d :
  live_session connection w = Some {| closed := false; tx := Active d |} ->
  Forall (fun f => f = None) (faults w) ->
  serves connection w.
Proof. intros Hlive Hplan. split; [|done]. eexists. split; [exact Hlive|done]. Qed.

Lemma unencodable_none (w : World) (row : list string) :
  Forall (fun value => encodes w value = true) row ->
  unencodable w (Some row) = None.
Proof.
  unfold unencodable. induction 1 as [|value rest Hvalue _ IH]; simpl; [done|].
  by rewrite Hvalue.
Qed.

Lemma add_column_loop_succeeds connection table_name cols names (w : World) t0 :
  serves connection w ->
  view_table connection table_name w = Some t0 ->
  read_names (identifier w) cols = Some names ->
  exists w',
    for_each cols
      (fun col => psycopg2.execute connection
                    (AlterTableAddColumnIfNotExists table_name col) None) w = (Ok tt, w') /\
    serves connection w' /\
    view_table connection table_name w' = Some (add_columns names t0) /\
    identifier w' = identifier w /\ encodes w' = encodes w.
Proof.
  revert names w t0.
  induction cols as [|col rest IH]; intros names w t0 Hserves Hview Hread; simpl in *.
  - injection Hread as <-. by exists w.
  - destruct (identifier w col) as [name|] eqn:Hname; [|discriminate].
    destruct (read_names (identifier w) rest) as [reads|] eqn:Hreads; [|discriminate].
    injection Hread as <-.
    destruct Hserves as [(ses & Hlive & Htx) Hplan].
    unfold view_table in Hview. rewrite Hlive in Hview.
    destruct (run_statement_succeeds connection
                (AlterTableAddColumnIfNotExists table_name col) None
                (record_call (CallExecute connection
                   (AlterTableAddColumnIfNotExists table_name col) None) w)
                ses (<[table_name := add_column name t0]> (current_view ses w)))
      as (w1 & Hrun & Hlive1 & Hplan1 & _ & _ & Hid1 & Henc1); try done.
    { simpl. change (current_view ses (record_call _ w)) with (current_view ses w).
      by rewrite Hname, Hview. }
    simpl in Hid1, Henc1.
    destruct (IH reads w1 (add_column name t0)) as (w' & Hrest & Hserves' & Hview' & Hid' & Henc').
    { by apply (serves_after _ _ _ Hlive1). }
    { unfold view_table. rewrite Hlive1. simpl. apply lookup_insert_eq. }
    { by rewrite Hid1. }
    exists w'. split_and!; try done; [|congruence..].
    by rewrite (bind_Ok_intro
                  (psycopg2.execute connection
                     (AlterTableAddColumnIfNotExists table_name col) None)
                  _ w tt w1 Hrun).
Qed.

Lemma insert_loop_succeeds connection table_name cols names values (w : World) t0 :
  serves connection w ->
  view_table connection table_name w = Some t0 ->
  read_names (identifier w) cols = Some names ->
  cols <> [] -> NoDup names -> Forall (fun name => name ∈ columns t0) names ->
  Forall (fun row => List.length row = List.length cols) values ->
  Forall (Forall (fun value => encodes w value = true)) values ->
  exists w',
    for_each values
      (fun row => run_statement connection (InsertInto table_name cols) (Some row)) w
      = (Ok tt, w') /\
    serves connection w' /\
    view_table connection table_name w' = Some (insert_rows names values t0).
Proof.
  intros Hserves Hview Hread Hcols Hnodup Hknown Hrows.
  revert w t0 Hserves Hview Hread Hknown.
  induction Hrows as [|row rest Hrow Hrest IH];
    intros w t0 Hserves Hview Hread Hknown Hvalues; simpl.
  - by exists w.
  - apply Forall_cons in Hvalues as [Hvalue Hvalues].
    destruct Hserves as [(ses & Hlive & Htx) Hplan].
    unfold view_table in Hview. rewrite Hlive in Hview.
    destruct (run_statement_succeeds connection (InsertInto table_name cols) (Some row)
                w ses (<[table_name := insert_row names row t0]> (current_view ses w)))
      as (w1 & Hrun & Hlive1 & Hplan1 & _ & _ & Hid1 & Henc1); try done.
    { by apply unencodable_none. }
    { simpl. rewrite Hrow, Nat.eqb_refl. simpl.
      rewrite bool_decide_eq_false_2 by done. rewrite Hread, Hview.
      replace (filter (fun c => c ∉ columns t0) names) with (@nil string).
      - by rewrite bool_decide_eq_true_2.
      - symmetry. clear -Hknown. induction Hknown as [|col cols' Hcol _ IH']; [done|].
        rewrite filter_cons_False by (intros Hnot; by apply Hnot). exact IH'. }
    destruct (IH w1 (insert_row names row t0)) as (w' & Hloop & Hserves' & Hview').
    { by apply (serves_after _ _ _ Hlive1). }
    { unfold view_table. rewrite Hlive1. simpl. apply lookup_insert_eq. }
    { by rewrite Hid1. }
    { exact Hknown. }
    { by rewrite Henc1. }
    exists w'. split_and!; try done. by rewrite (bind_Ok_intro _ _ _ _ _ Hrun).
Qed.

Lemma commit_succeeds connection (w : World) :
  serves connection w ->
  exists w', psycopg2.commit connection w = (Ok tt, w').
Proof.
  intros [(ses & Hlive & Htx) Hplan]. unfold psycopg2.commit.
  rewrite live_session_record_call, Hlive.
  destruct (tx ses); [eauto| |done].
  destruct (next_fault_none (record_call (CallCommit connection) w) Hplan)
    as (w1 & -> & _). eauto.
Qed.

Lemma filter_unseen_snoc (seen : list string) (col : string) (rest : list string) :
  col ∉ rest ->
  filter (fun c => c ∉ seen ++ [col]) rest = filter (fun c => c ∉ seen) rest.
Proof.
  induction rest as [|c rest IH]; [done|]. intros Hfresh.
  apply not_elem_of_cons in Hfresh as [Hne Hfresh].
  rewrite !filter_cons, (IH Hfresh).
  destruct (decide (c ∉ seen ++ [col])) as [Hc|Hc], (decide (c ∉ seen)) as [Hc'|Hc'];
    try done.
  - destruct Hc'. intros Hin. apply Hc, elem_of_app. by left.
  - destruct Hc. intros [Hin|Hin]%elem_of_app; [done|].
    apply elem_of_cons in Hin as [?|Hin]; [done|]. by apply elem_of_nil in Hin.
Qed.

Lemma add_columns_NoDup cols t :
  NoDup cols ->
  columns (add_columns cols t) = columns t ++ filter (fun col => col ∉ columns t) cols.
Proof.
  unfold add_columns. intros Hnodup. revert t.
  induction Hnodup as [|col rest Hfresh _ IH]; intros t; simpl.
  - by rewrite app_nil_r.
  - rewrite IH, add_column_columns. case_bool_decide as Hin; simpl.
    + rewrite app_nil_r. by rewrite filter_cons_False by (intros Hnot; by apply Hnot).
    + rewrite filter_cons_True by done. rewrite <- app_assoc. simpl. do 2 f_equal.
      by apply filter_unseen_snoc.
Qed.

Lemma insert_rows_rows cols values t :
  rows (insert_rows cols values t) = rows t ++ map (zip cols) values.
Proof.
  unfold insert_rows. revert t. induction values as [|row rest IH]; intros t; simpl.
  - by rewrite app_nil_r.
  - rewrite IH. simpl. by rewrite <- app_assoc.
Qed.

Lemma add_columns_known cols t :
  Forall (fun col => col ∈ columns (add_columns cols t)) cols.
Proof.
  apply Forall_forall. intros col Hcol.
  destruct (add_columns_spec cols t) as (_ & Hset & _).
  apply (elem_of_list_to_set (C := gset string)). rewrite Hset.
  apply elem_of_union_r. by apply elem_of_list_to_set.
Qed.

(** X9.  On a connection that can run statements, with a server that
    fails none, [populate_table] succeeds whenever the connection sees
    the table, the dataset has at least one column, the server reads
    every column name as one identifier and the names it reads are
    distinct, every row has one value per column and the connection's
    encoding can represent every value.  The committed table then has
    the previous columns followed by the new ones, as the server reads
    them, in dataset order, and the previous rows followed by one row
    per row of the dataset, in order. *)
Theorem populate_table_succeeds
    connection table_name dataframe (w : World) t0 names :
  serves connection w ->
  view_table connection table_name w = Some t0 ->
  df_columns dataframe <> [] ->
  read_names (identifier w) (df_columns dataframe) = Some names ->
  NoDup names ->
  Forall (fun row => List.length row = List.length (df_columns dataframe))
         (df_values dataframe) ->
  Forall (Forall (fun value => encodes w value = true)) (df_values dataframe) ->
  exists w',
    populate_table connection table_name dataframe w = (Ok tt, w') /\
    committed w' !! table_name =
      Some {| columns := columns t0 ++ filter (fun name => name ∉ columns t0) names;
              rows := rows t0 ++ map (zip names) (df_values dataframe) |}.
Proof.
  intros Hserves Hview Hcols Hread Hnodup Hrows Hvalues.
  assert (exists ses, live_session connection w = Some ses) as [ses Hlive].
  { destruct Hserves as [(ses & Hlive & _) _]. eauto. }
  destruct (add_column_loop_succeeds connection table_name (df_columns dataframe) names
              (record_call (CallCursor connection) w) t0)
    as (w1 & Hloop & Hserves1 & Hview1 & Hid1 & Henc1); [done..|].
  simpl in Hid1, Henc1.
  destruct (insert_loop_succeeds connection table_name (df_columns dataframe) names
              (df_values dataframe)
              (record_call (CallExecuteMany connection
                 (InsertInto table_name (df_columns dataframe)) (df_values dataframe)) w1)
              (add_columns names t0))
    as (w2 & Hinsert & Hserves2 & Hview2); try done.
  { simpl. by rewrite Hid1. }
  { apply add_columns_known. }
  { simpl. by rewrite Henc1. }
  destruct (commit_succeeds connection w2 Hserves2) as (w3 & Hcommit).
  destruct (commit_Ok_view _ _ _ _ _ Hcommit Hview2) as [Hcommitted _].
  eexists. split.
  - unfold populate_table, try_except.
    erewrite (bind_Ok_intro (psycopg2.cursor connection)); cycle 1.
    { unfold psycopg2.cursor. rewrite live_session_record_call, Hlive. reflexivity. }
    erewrite bind_Ok_intro by exact Hloop.
    erewrite (bind_Ok_intro (psycopg2.executemany _ _ _)); cycle 1.
    { unfold psycopg2.executemany. rewrite live_session_record_call.
      destruct Hserves1 as [(ses1 & -> & _) _]. exact Hinsert. }
    erewrite bind_Ok_intro by exact Hcommit.
    reflexivity.
  - simpl. rewrite Hcommitted. f_equal.
    destruct (insert_rows_spec names (df_values dataframe) (add_columns names t0))
      as [Hc _].
    destruct (add_columns_spec names t0) as (_ & _ & Hr).
    destruct (insert_rows _ _ _) as [cs rs] eqn:Hfinal. simpl in *.
    rewrite Hc, add_columns_NoDup by done. f_equal.
    change rs with (rows {| columns := cs; rows := rs |}).
    by rewrite <- Hfinal, insert_rows_rows, Hr.
Qed.

Lemma populate_table_succeeds_witness :
  let dataframe := {| df_columns := ["B"; "c"]; df_values := [["y2"; "z"]] |} in
  let t0 := {| columns := ["a"; "b"]; rows := [[("a", "x"); ("b", "y")]] |} in
  let w := example_world {[ "t1" := t0 ]} [] in
  let names := ["b"; "c"] in
  exists w',
    populate_table 0 "t1" dataframe w = (Ok tt, w') /\
    committed w' !! "t1" =
      Some {| columns := columns t0 ++ filter (fun name => name ∉ columns t0) names;
              rows := rows t0 ++ map (zip names) (df_values dataframe) |}.
Proof.
  intros dataframe t0 w names.
  apply (populate_table_succeeds 0 "t1" dataframe w t0 names).
  - split; [|constructor]. eexists. split; [reflexivity|discriminate].
  - vm_compute; reflexivity.
  - discriminate.
  - vm_compute; reflexivity.
  - refine (bool_decide_unpack _ _). vm_compute. exact I.
  - repeat constructor.
  - repeat constructor.
Defined.

Ltac provisioning_cases connection w ses Hses Hopen Htx Hplan :=
  unfold try_except, bind, psycopg2.cursor, psycopg2.cursor_close, psycopg2.execute,
    psycopg2.executemany, psycopg2.commit, run_statement, logger_info, logger_error,
    raise, ret, live_session, next_fault, set_tx, current_view;
  simpl; rewrite ?Hses, ?Hopen;
  destruct (tx ses) eqn:Htx, (faults w) as [|[?|] [|[?|] ?]] eqn:Hplan;
  repeat (progress (simpl; rewrite ?list_lookup_alter_eq, ?Hses, ?Hopen, ?Htx, ?Hplan)).

(** What a successful [create_table] leaves. *)
Lemma create_table_Ok connection table_name (w : World) ses w' :
  live_session connection w = Some ses ->
  create_table connection table_name w = (Ok tt, w') ->
  committed w' =
    match current_view ses w !! table_name with
    | Some _ => current_view ses w
    | None => <[table_name := empty_table]> (current_view ses w)
    end /\
  sessions w' !! connection = Some {| closed := false; tx := Idle |}.
Proof.
  intros [Hses Hopen]%lookup_live. unfold create_table.
  provisioning_cases connection w ses Hses Hopen Htx Hplan; try discriminate;
    match goal with
    | |- context [?d !! table_name] => destruct (d !! table_name) eqn:Hlookup
    end;
    repeat (progress (simpl; rewrite ?list_lookup_alter_eq, ?Hses, ?Hopen, ?Htx, ?Hplan));
    try discriminate; intros [= <-]; simpl;
    rewrite ?list_lookup_alter_eq, ?Hses; simpl; rewrite ?Hopen; done.
Qed.

(** X10.  A successful [create_table] commits what the connection saw,
    with the table added, empty, when it was not there: a table that
    existed keeps its columns and rows, every other table is as the
    connection saw it, and the connection is left open, outside a
    transaction. *)
Theorem create_table_keeps_existing connection table_name (w : World) ses w' :
  live_session connection w = Some ses ->
  create_table connection table_name w = (Ok tt, w') ->
  committed w' !! table_name =
    Some (default empty_table (current_view ses w !! table_name)) /\
  (forall other, other <> table_name ->
                 committed w' !! other = current_view ses w !! other) /\
  live_session connection w' = Some {| closed := false; tx := Idle |}.
Proof.
  intros Hlive Hcall.
  destruct (create_table_Ok _ _ _ _ _ Hlive Hcall) as [-> Hses'].
  destruct (current_view ses w !! table_name) as [t|] eqn:Hlookup; simpl; split_and!.
  - done.
  - done.
  - unfold live_session. by rewrite Hses'.
  - apply lookup_insert_eq.
  - intros other Hother. by apply lookup_insert_ne.
  - unfold live_session. by rewrite Hses'.
Qed.

Lemma create_table_keeps_existing_witness :
  let t0 := {| columns := ["a"]; rows := [[("a", "x")]] |} in
  let w := example_world {[ "t1" := t0 ]} [] in
  let ses := {| closed := false; tx := Idle |} in
  let w' := (create_table 0 "t1" w).2 in
  committed w' !! "t1" = Some (default empty_table (current_view ses w !! "t1")) /\
  (forall other, other <> "t1" -> committed w' !! other = current_view ses w !! other) /\
  live_session 0 w' = Some {| closed := false; tx := Idle |}.
Proof.
  intros t0 w ses w'.
  apply (create_table_keeps_existing 0 "t1" w ses w'); vm_compute; reflexivity.
Defined.

(** X11.  [create_table] is idempotent: after a successful call, a second
    call for the same table on the same connection, with a server that
    fails neither the statement nor the commit, succeeds and leaves the
    committed state as the first call left it. *)
Theorem create_table_idempotent connection table_name (w w1 : World) :
  create_table connection table_name w = (Ok tt, w1) ->
  Forall (fun f => f = None) (take 2 (faults w1)) ->
  exists w2,
    create_table connection table_name w1 = (Ok tt, w2) /\
    committed w2 = committed w1.
Proof.
  intros Hfirst Hcalm.
  assert (exists ses, live_session connection w = Some ses) as [ses Hlive].
  { revert Hfirst. unfold create_table, try_except, bind, psycopg2.cursor.
    rewrite live_session_record_call.
    destruct (live_session connection w); [eauto|discriminate]. }
  destruct (create_table_Ok _ _ _ _ _ Hlive Hfirst) as [Hcommitted Hses1].
  assert (is_Some (committed w1 !! table_name)) as [t Ht].
  { rewrite Hcommitted. destruct (current_view ses w !! table_name) eqn:Hlookup.
    - by rewrite Hlookup.
    - rewrite lookup_insert_eq. eauto. }
  unfold create_table.
  provisioning_cases connection w1 {| closed := false; tx := Idle |} Hses1 Hses1 Htx Hplan;
    rewrite ?Ht;
    repeat (progress (simpl; rewrite ?list_lookup_alter_eq, ?Hses1, ?Hplan));
    try (eexists; split; reflexivity);
    simpl in Hcalm;
    repeat match goal with
           | H : Forall _ (_ :: _) |- _ =>
               let Hhead := fresh in
               apply Forall_cons in H as [Hhead H]; try discriminate Hhead
           end.
Qed.

Lemma create_table_idempotent_witness :
  let w := example_world ∅ [] in
  let w1 := (create_table 0 "t1" w).2 in
  exists w2,
    create_table 0 "t1" w1 = (Ok tt, w2) /\ committed w2 = committed w1.
Proof.
  intros w w1.
  apply (create_table_idempotent 0 "t1" w w1); [vm_compute; reflexivity|].
  vm_compute. constructor.
Defined.

(** X12.  An empty dataset is a successful no-op, whether the table
    exists or not: on a live connection outside a transaction,
    [populate_table] with no columns and no rows sends no statement and
    changes neither the committed state nor any session. *)
Theorem populate_table_empty_dataset
    connection table_name dataframe (w : World) ses :
  live_session connection w = Some ses ->
  tx ses = Idle ->
  df_columns dataframe = [] ->
  df_values dataframe = [] ->
  exists w',
    populate_table connection table_name dataframe w = (Ok tt, w') /\
    committed w' = committed w /\
    sessions w' = sessions w /\
    faults w' = faults w /\
    journal w' =
      journal w ++ [CallCursor connection;
                    CallExecuteMany connection (InsertInto table_name []) [];
                    CallCommit connection;
                    CallCursorClose connection].
Proof.
  intros Hlive Htx Hcols Hvalues.
  unfold populate_table, try_except, bind, psycopg2.cursor, psycopg2.executemany,
    psycopg2.commit, psycopg2.cursor_close, logger_info.
  rewrite Hcols, Hvalues. simpl.
  rewrite !live_session_record_call, Hlive. simpl.
  rewrite !live_session_record_call, Hlive. simpl.
  rewrite !live_session_record_call, Hlive, Htx.
  eexists. split_and!; try reflexivity. simpl. by rewrite <- !app_assoc.
Qed.

Lemma populate_table_empty_dataset_witness :
  let w := example_world ∅ [] in
  exists w',
    populate_table 0 "test_table_nonexistent" no_data w = (Ok tt, w') /\
    committed w' = committed w /\
    sessions w' = sessions w /\
    faults w' = faults w /\
    journal w' =
      journal w ++ [CallCursor 0;
                    CallExecuteMany 0 (InsertInto "test_table_nonexistent" []) [];
                    CallCommit 0;
                    CallCursorClose 0].
Proof.
  intros w.
  apply (populate_table_empty_dataset 0 "test_table_nonexistent" no_data w
           {| closed := false; tx := Idle |}); reflexivity.
Defined.

(** X13.  Neither [create_table] nor [populate_table] rolls back.  After
    [populate_table] has failed on a table the connection does not see
    (with the server's undefined-table error, or with its syntax error
    when the server does not read the first column name as one
    identifier), the transaction of the connection is failed, and every
    further [create_table], and every further [populate_table] with a
    column, on that connection fails with the driver's failed-transaction
    error and commits nothing. *)
Theorem failed_populate_blocks_provisioning
    connection table_name dataframe (w : World) ses col rest :
  df_columns dataframe = col :: rest ->
  live_session connection w = Some ses ->
  tx ses <> Failed ->
  (next_fault w).1 = None ->
  view_table connection table_name w = None ->
  exists w',
    populate_table connection table_name dataframe w
      = (Raise (DriverError
                  match identifier w col with
                  | Some _ => UndefinedTable table_name
                  | None =>
                      SyntaxError (sql_text (AlterTableAddColumnIfNotExists table_name col))
                  end), w') /\
    live_session connection w' = Some {| closed := false; tx := Failed |} /\
    (forall other,
        exists w'',
          create_table connection other w'
            = (Raise (DriverError InFailedSqlTransaction), w'') /\
          committed w'' = committed w) /\
    (forall other dataframe' col' rest',
        df_columns dataframe' = col' :: rest' ->
        exists w'',
          populate_table connection other dataframe' w'
            = (Raise (DriverError InFailedSqlTransaction), w'') /\
          committed w'' = committed w).
Proof.
  intros Hcols Hlive Htx Hfault Hview.
  destruct (lookup_live _ _ _ Hlive) as [Hses Hopen].
  unfold view_table in Hview. rewrite Hlive in Hview.
  assert (forall t (w0 : World),
             sessions (set_tx connection t w0) = alter
               (fun s => {| closed := closed s; tx := t |}) connection (sessions w0))
    as Hset by reflexivity.
  unfold populate_table at 1. unfold try_except, bind, psycopg2.cursor. rewrite Hcols.
  rewrite live_session_record_call, Hlive. simpl.
  unfold bind, psycopg2.execute, run_statement.
  rewrite !live_session_record_call, Hlive.
  unfold next_fault in *. simpl in *.
  destruct (identifier w col) as [name|] eqn:Hname;
    (destruct (tx ses) eqn:Htx'; [| |done]);
    destruct (faults w) as [|[e|] fs] eqn:Hplan; simpl in *; try discriminate;
    unfold current_view in *; rewrite Htx' in *; simpl in *; rewrite ?Hname, ?Hview;
    (eexists; split; [reflexivity|]);
    (split_and!;
     [ unfold live_session; simpl; by rewrite list_lookup_alter_eq, Hses; simpl; rewrite Hopen
     | intros other; unfold create_table, try_except, bind, psycopg2.cursor,
         psycopg2.execute, run_statement, live_session; simpl;
       rewrite list_lookup_alter_eq, Hses; simpl; rewrite Hopen; simpl;
       rewrite list_lookup_alter_eq, Hses; simpl; rewrite Hopen; simpl;
       eexists; split; reflexivity
     | intros other dataframe' col' rest' Hcols';
       unfold populate_table, try_except, bind, psycopg2.cursor; rewrite Hcols';
       unfold live_session; simpl;
       rewrite list_lookup_alter_eq, Hses; simpl; rewrite Hopen; simpl;
       unfold bind, psycopg2.execute, run_statement, live_session; simpl;
       rewrite list_lookup_alter_eq, Hses; simpl; rewrite Hopen; simpl;
       eexists; split; reflexivity ]).
Qed.

Lemma failed_populate_blocks_provisioning_witness :
  let dataframe := {| df_columns := ["column1"; "column2"];
                      df_values := [["data0"; "more_data0"]] |} in
  let w := example_world ∅ [] in
  exists w',
    populate_table 0 "test_table_nonexistent" dataframe w
      = (Raise (DriverError (UndefinedTable "test_table_nonexistent")), w') /\
    live_session 0 w' = Some {| closed := false; tx := Failed |} /\
    (forall other,
        exists w'',
          create_table 0 other w' = (Raise (DriverError InFailedSqlTransaction), w'') /\
          committed w'' = committed w) /\
    (forall other dataframe' col' rest',
        df_columns dataframe' = col' :: rest' ->
        exists w'',
          populate_table 0 other dataframe' w'
            = (Raise (DriverError InFailedSqlTransaction), w'') /\
          committed w'' = committed w).
Proof.
  intros dataframe w.
  apply (failed_populate_blocks_provisioning 0 "test_table_nonexistent" dataframe w
           {| closed := false; tx := Idle |} "column1" ["column2"]);
    try reflexivity.
  discriminate.
Defined.

Lemma run_statement_logged connection s params (w : World) r w' :
  run_statement connection s params w = (r, w') -> logged w' = logged w.
Proof.
  unfold run_statement, next_fault.
  destruct (live_session connection w) as [ses|]; [|intros [= <- <-]; auto].
  destruct (unencodable w params); [intros [= <- <-]; auto|].
  destruct (tx ses), (faults w) as [|[e|] fs]; simpl;
    try destruct (engine _ _ _ _ _); intros [= <- <-]; auto.
Qed.

Lemma statements_keep_logged {A} (xs : list A) (f : A -> statement)
    (g : A -> option (list string)) (h : A -> World -> World) connection
    (w : World) r w' :
  (forall x w, logged (h x w) = logged w) ->
  for_each xs (fun x w => run_statement connection (f x) (g x) (h x w)) w = (r, w') ->
  logged w' = logged w.
Proof.
  intros Hh. apply (for_each_frame xs _ (fun w w' => logged w' = logged w)).
  - done.
  - intros w1 w2 w3 H12 H23. by rewrite H23.
  - intros x w0 r0 w0' ->%run_statement_logged. apply Hh.
Qed.

Lemma commit_logged connection (w : World) r w' :
  psycopg2.commit connection w = (r, w') -> logged w' = logged w.
Proof.
  unfold psycopg2.commit, next_fault. simpl.
  destruct (live_session _ _) as [ses|]; [|intros [= <- <-]; done].
  destruct (tx ses), (faults w) as [|[e1|] fs]; simpl; intros [= <- <-]; done.
Qed.

Lemma cursor_inv connection (w : World) r w' :
  psycopg2.cursor connection w = (r, w') ->
  w' = record_call (CallCursor connection) w /\
  (r = Raise connection_closed \/ r = Ok connection).
Proof.
  unfold psycopg2.cursor. destruct (live_session _ _); intros [= <- <-]; auto.
Qed.

Lemma provisioning_failure_log connection table_name (w : World) :
  (forall e w',
      create_table connection table_name w = (Raise e, w') ->
      logged w' = logged w ++ [LogError "Error in creating table: " e]) /\
  (forall dataframe e w',
      populate_table connection table_name dataframe w = (Raise e, w') ->
      logged w' = logged w ++ [LogError "Error in populating table: " e]).
Proof.
  split.
  - intros e w' (w1 & Hbody & ->)%try_except_reraise_Raise. simpl. f_equal.
    apply bind_Raise_inv in Hbody as [Hcursor|(cursor & w2 & Hcursor & Hbody)];
      apply cursor_inv in Hcursor as [-> _]; [done|].
    apply bind_Raise_inv in Hbody as [Hexec|([] & w3 & Hexec & Hbody)];
      unfold psycopg2.execute in Hexec; apply run_statement_logged in Hexec; [done|].
    apply bind_Raise_inv in Hbody as [Hcommit|([] & w4 & Hcommit & Hbody)];
      apply commit_logged in Hcommit; [by rewrite Hcommit, Hexec|].
    apply bind_Raise_inv in Hbody as [Hclose|([] & w5 & Hclose & Hlog)]; discriminate.
  - intros dataframe e w' (w1 & Hbody & ->)%try_except_reraise_Raise. simpl. f_equal.
    apply bind_Raise_inv in Hbody as [Hcursor|(cursor & w2 & Hcursor & Hbody)];
      apply cursor_inv in Hcursor as [-> Hcursor]; [done|].
    destruct Hcursor as [?| [= ->]]; [done|].
    apply bind_Raise_inv in Hbody as [Hloop|([] & w3 & Hloop & Hbody)];
      apply (statements_keep_logged _ _ _
               (fun col => record_call (CallExecute connection
                  (AlterTableAddColumnIfNotExists table_name col) None))) in Hloop;
      try done.
    assert (forall r w4, psycopg2.executemany connection
                           (InsertInto table_name (df_columns dataframe))
                           (df_values dataframe) w3 = (r, w4) ->
                         logged w4 = logged w3) as Hmany_logged.
    { intros r w4. unfold psycopg2.executemany.
      destruct (live_session _ _); [|intros [= <- <-]; done].
      intros Hmany.
      by apply (statements_keep_logged _ _ _ (fun _ w => w)) in Hmany. }
    apply bind_Raise_inv in Hbody as [Hmany|([] & w4 & Hmany & Hbody)];
      apply Hmany_logged in Hmany; [by rewrite Hmany, Hloop|].
    apply bind_Raise_inv in Hbody as [Hcommit|([] & w5 & Hcommit & Hbody)];
      apply commit_logged in Hcommit; [by rewrite Hcommit, Hmany, Hloop|].
    apply bind_Raise_inv in Hbody as [Hclose|([] & w6 & Hclose & Hlog)]; discriminate.
Qed.

(** X14.  A failure of [create_table] or of [populate_table] is logged
    once, with the very exception that is raised, and nothing else is
    logged by the failed call. *)
Theorem provisioning_logs_failure connection table_name (w : World) :
  (forall e w',
      create_table connection table_name w = (Raise e, w') ->
      logged w' = logged w ++ [LogError "Error in creating table: " e]) /\
  (forall dataframe e w',
      populate_table connection table_name dataframe w = (Raise e, w') ->
      logged w' = logged w ++ [LogError "Error in populating table: " e]).
Proof. apply provisioning_failure_log. Qed.

Lemma provisioning_logs_failure_witness :
  let dataframe := {| df_columns := ["a"; "b c"]; df_values := [["x"; "y"]] |} in
  let failure := SyntaxError "ALTER TABLE t1 ADD COLUMN IF NOT EXISTS b c TEXT;" in
  let w := example_world {[ "t1" := empty_table ]} [None; Some failure] in
  logged (populate_table 0 "t1" dataframe w).2 =
    logged w ++ [LogError "Error in populating table: " (DriverError failure)].
Proof.
  intros dataframe failure w.
  apply (proj2 (provisioning_logs_failure 0 "t1" w) dataframe (DriverError failure)).
  vm_compute; reflexivity.
Defined.

(** ** Console rendering *)

(** X15.  [display_results_as_table] prints one table, last; its columns
    are the columns of the DataFrame, in order, each with the given
    maximal width; its rows are the first rows of the DataFrame, all of
    them up to 50 and never more; the warning is printed, before the
    table, exactly when the DataFrame has more than 50 rows. *)
Theorem display_results_as_table_limit (dataframe : DataFrame) (max_column_width : nat) :
  exists warning table_rows,
    display_results_as_table dataframe max_column_width =
      warning ++ [ConsoleTable
                    (map (fun col => (col, max_column_width)) (df_columns dataframe))
                    table_rows] /\
    table_rows = take 50 (df_values dataframe) /\
    List.length table_rows = Nat.min 50 (List.length (df_values dataframe)) /\
    (List.length (df_values dataframe) <= 50 ->
     warning = [] /\ table_rows = df_values dataframe) /\
    (50 < List.length (df_values dataframe) ->
     exists text style, warning = [ConsoleText text style]).
Proof.
  unfold display_results_as_table.
  destruct (50 <? List.length (df_values dataframe))%nat eqn:Hbig.
  - apply Nat.ltb_lt in Hbig. eexists _, _. split; [reflexivity|]. simpl. split_and!.
    + reflexivity.
    + by rewrite length_take.
    + lia.
    + eauto.
  - apply Nat.ltb_ge in Hbig. exists [], (df_values dataframe). split; [reflexivity|].
    split_and!.
    + by rewrite take_ge.
    + lia.
    + done.
    + lia.
Qed.

Lemma display_results_as_table_limit_witness :
  let dataframe := {| df_columns := ["column1"]; df_values := replicate 51 ["data"] |} in
  exists warning table_rows,
    display_results_as_table dataframe 20 =
      warning ++ [ConsoleTable (map (fun col => (col, 20)) (df_columns dataframe))
                    table_rows] /\
    table_rows = take 50 (df_values dataframe) /\
    List.length table_rows = Nat.min 50 (List.length (df_values dataframe)) /\
    (List.length (df_values dataframe) <= 50 ->
     warning = [] /\ table_rows = df_values dataframe) /\
    (50 < List.length (df_values dataframe) ->
     exists text style, warning = [ConsoleText text style]).
Proof.
  intros dataframe. exact (display_results_as_table_limit dataframe 20).
Defined.

(** ** The metadata cache, continued *)

Lemma for_each_logger_info {A} (xs : list A) (text : A -> string) (w : World) :
  exists w',
    for_each xs (fun x => logger_info (text x)) w = (Ok tt, w') /\
    logged w' = logged w ++ map (fun x => LogInfo (text x)) xs /\
    committed w' = committed w /\ sessions w' = sessions w /\
    journal w' = journal w /\ faults w' = faults w.
Proof.
  revert w. induction xs as [|x rest IH]; intros w; simpl.
  - exists w. by rewrite app_nil_r.
  - destruct (IH (record_log (LogInfo (text x)) w)) as (w' & Hrest & Hlog & ? & ? & ? & ?).
    exists w'. unfold bind, logger_info at 1. rewrite Hrest. split_and!; try done.
    rewrite Hlog. simpl. by rewrite <- app_assoc.
Qed.

Lemma for_each_ext {A} (xs : list A) (f g : A -> M unit) (w : World) :
  (forall x w, f x w = g x w) -> for_each xs f w = for_each xs g w.
Proof.
  intros Hfg. revert w. induction xs as [|x rest IH]; intros w; simpl; [done|].
  unfold bind. rewrite Hfg. destruct (g x w) as [[[]|e] w1]; [apply IH|done].
Qed.

(** X16.  [display_metadata] never raises and touches nothing but the
    log.  Before any successful refresh it logs the one message that the
    cache is empty; afterwards it logs one CREATE TABLE statement per
    cached table, in the order of the cache, each listing the table's
    columns as [format_column_details] renders them. *)
Theorem display_metadata_logs_cache (self : MetadataCache) (w : World) :
  exists w',
    display_metadata self w = (Ok tt, w') /\
    logged w' =
      logged w ++
        match metadata_cache self with
        | None => [LogInfo "Metadata cache is empty. Please refresh it first."]
        | Some metadata =>
            map (fun entry =>
                   LogInfo ("CREATE TABLE " +:+ entry.1 +:+ " (
    " +:+ Py.join ",
    " (map format_column_details (table_obj_columns entry.2)) +:+ "
);"))
                (metadata_tables metadata)
        end /\
    committed w' = committed w /\ sessions w' = sessions w /\ journal w' = journal w.
Proof.
  unfold display_metadata. destruct (metadata_cache self) as [metadata|].
  - destruct (for_each_logger_info (metadata_tables metadata)
                (fun entry => "CREATE TABLE " +:+ entry.1 +:+ " (
    " +:+ Py.join ",
    " (map format_column_details (table_obj_columns entry.2)) +:+ "
);") w) as (w' & Hloop & Hlog & ? & ? & ? & ?).
    exists w'. split_and!; try done. rewrite <- Hloop.
    apply for_each_ext. by intros [table_name table] w0.
  - eexists. split_and!; reflexivity.
Qed.

(** * Error kinds *)

Lemma raises_driver_errors_kind {A} (m : M A) (w : World) e w' :
  raises_driver_errors m -> m w = (Raise e, w') -> kind_of e = None.
Proof. intros Hm [d ->]%Hm. reflexivity. Qed.

Lemma read_sql_logged query connection params (w : World) r w' :
  pd.read_sql query connection params w = (r, w') -> logged w' = logged w.
Proof.
  unfold pd.read_sql, next_fault. simpl.
  destruct (live_session _ _) as [ses|]; [|intros [= <- <-]; done].
  destruct (unencodable _ params); [intros [= <- <-]; done|].
  destruct (tx ses), (faults w) as [|[e1|] fs]; simpl; intros [= <- <-]; done.
Qed.

(** A failure of [query_database] is the failure of [pd.read_sql]. *)
Lemma query_database_reraises connection query params close_connection (w : World) e w' :
  query_database (Some connection) query params close_connection w = (Raise e, w') ->
  (exists w1, pd.read_sql query connection params w = (Raise e, w1)) /\
  logged w' =
    logged w ++ LogError "Query execution error: " e
      :: (if close_connection then [LogInfo "Database connection closed."] else []).
Proof.
  unfold query_database, try_finally.
  destruct (try_except _ _ w) as [r w1] eqn:Hbody.
  assert (exists w2,
             when close_connection
               (psycopg2.close connection ;;; logger_info "Database connection closed.") w1
               = (Ok tt, w2) /\
             logged w2 =
               logged w1
                 ++ (if close_connection then [LogInfo "Database connection closed."] else []))
    as (w2 & -> & Hclose).
  { destruct close_connection; simpl; eexists; (split; [reflexivity|]); simpl;
      by rewrite ?app_nil_r. }
  intros [= -> <-].
  apply try_except_reraise_Raise in Hbody as (w0 & Hread & ->).
  apply bind_Raise_inv in Hread as [Hread|(df & w3 & _ & Hrest)]; [|discriminate].
  split; [eauto|]. rewrite Hclose. simpl.
  rewrite (read_sql_logged _ _ _ _ _ _ Hread). by rewrite <- app_assoc.
Qed.

(** On a live connection, a failure of [update_records] or of
    [create_view] is the failure of the statement or of the commit. *)
Lemma update_and_view_reraise connection ses close_connection (w : World) :
  live_session connection w = Some ses ->
  (forall update_query params e w',
      update_records (Some connection) update_query params close_connection w = (Raise e, w') ->
      exists w1,
        execute_and_commit connection (RawSql update_query) params w = (Raise e, w1)) /\
  (forall view_name view_query e w',
      create_view (Some connection) view_name view_query close_connection w = (Raise e, w') ->
      exists w1,
        execute_and_commit connection
          (RawSql ("CREATE OR REPLACE VIEW " +:+ view_name +:+ " AS " +:+ view_query))
          None w = (Raise e, w1)).
Proof.
  intros [Hses Hopen]%lookup_live. split.
  - intros update_query params e w'. unfold update_records, execute_and_commit.
    mutation_cases connection w ses params close_connection Hses; try discriminate;
      intros [= <- <-]; eexists; reflexivity.
  - intros view_name view_query e w'. unfold create_view, execute_and_commit.
    mutation_cases connection w ses (@None (list string)) close_connection Hses;
      try discriminate; intros [= <- <-]; eexists; reflexivity.
Qed.

(** A failure of [create_table] or of [populate_table] is the failure of
    one of its calls into the driver. *)
Lemma provisioning_reraises connection table_name (w : World) :
  (forall e w',
      create_table connection table_name w = (Raise e, w') ->
      exists w1, create_table_calls connection table_name w = (Raise e, w1)) /\
  (forall dataframe e w',
      populate_table connection table_name dataframe w = (Raise e, w') ->
      exists w1, populate_table_calls connection table_name dataframe w = (Raise e, w1)).
Proof.
  split.
  - intros e w' (w1 & Hbody & ->)%try_except_reraise_Raise.
    revert Hbody. unfold create_table_calls, bind.
    destruct (psycopg2.cursor connection w) as [[cursor|e1] w2]; [|intros [= <- <-]; eauto].
    simpl. destruct (psycopg2.execute cursor _ None w2) as [[[]|e2] w3];
      [|intros [= <- <-]; eauto].
    destruct (psycopg2.commit connection w3) as [[[]|e3] w4]; [|intros [= <- <-]; eauto].
    discriminate.
  - intros dataframe e w' (w1 & Hbody & ->)%try_except_reraise_Raise.
    revert Hbody. unfold populate_table_calls, bind.
    destruct (psycopg2.cursor connection w) as [[cursor|e1] w2]; [|intros [= <- <-]; eauto].
    simpl. destruct (for_each _ _ w2) as [[[]|e2] w3]; [|intros [= <- <-]; eauto].
    destruct (psycopg2.executemany cursor _ _ w3) as [[[]|e3] w4];
      [|intros [= <- <-]; eauto].
    destruct (psycopg2.commit connection w4) as [[[]|e4] w5]; [|intros [= <- <-]; eauto].
    discriminate.
Qed.

Lemma populate_missing_table connection table_name dataframe w ses col rest :
  df_columns dataframe = col :: rest ->
  live_session connection w = Some ses ->
  tx ses <> Failed ->
  (next_fault w).1 = None ->
  view_table connection table_name w = None ->
  let failure :=
    DriverError
      match identifier w col with
      | Some _ => UndefinedTable table_name
      | None => SyntaxError (sql_text (AlterTableAddColumnIfNotExists table_name col))
      end in
  exists w',
    populate_table connection table_name dataframe w = (Raise failure, w') /\
    committed w' = committed w /\
    journal w' = journal w ++ [CallCursor connection;
                               CallExecute connection
                                 (AlterTableAddColumnIfNotExists table_name col) None] /\
    logged w' = logged w ++ [LogError "Error in populating table: " failure].
Proof.
  intros Hcols Hlive Htx Hfault Hview.
  unfold view_table in Hview. rewrite Hlive in Hview.
  unfold populate_table, try_except, bind, psycopg2.cursor. rewrite Hcols.
  rewrite live_session_record_call, Hlive. simpl.
  unfold bind, psycopg2.execute, run_statement.
  rewrite !live_session_record_call, Hlive.
  unfold next_fault in *. simpl in *.
  destruct (identifier w col) as [name|] eqn:Hname;
    (destruct (tx ses) eqn:Htx'; [| |done]);
    destruct (faults w) as [|[e|] fs]; simpl in *; try discriminate;
    unfold current_view in *; rewrite Htx' in *; simpl in *; rewrite ?Hname, ?Hview;
    eexists; split_and!; try reflexivity; simpl; by rewrite <- app_assoc.
Qed.

(** C2, as the claim states it, fails: a failed update is re-raised as
    the driver's own error, which is not of the QueryError kind. *)
Lemma failures_are_not_query_errors : ~ failures_are_query_errors.
Proof.
  intros (_ & Hupdate & _).
  specialize (Hupdate 0 "UPDATE t SET" None true
                (example_world ∅ [Some (SyntaxError "UPDATE t SET")])
                (DriverError (SyntaxError "UPDATE t SET")) _ eq_refl).
  discriminate Hupdate.
Qed.

(** C2, as amended.  A query, an update, a view creation or a
    provisioning call on a given connection fails only when one of its
    calls into a collaborator fails ([pd.read_sql] for a query; the
    cursor, a statement or the commit for the others), and then with the
    very exception that this call raised: nothing is wrapped, and the
    exception is of none of the module's kinds.  [query_database],
    [create_table] and [populate_table] log the failure once, with that
    exception; [update_records] and [create_view] do so when the
    connection is live.  [populate_table] with at least one column, on a
    live connection that does not see the table, fails at the first
    ADD COLUMN with the server's undefined-table error (with its syntax
    error when the server does not read the column name as one
    identifier), is logged once, and commits nothing. *)
Theorem failures_are_raw_driver_errors :
  (forall connection query params close_connection (w : World) e w',
      query_database (Some connection) query params close_connection w = (Raise e, w') ->
      kind_of e = None /\
      (exists w1, pd.read_sql query connection params w = (Raise e, w1)) /\
      logged w' =
        logged w ++ LogError "Query execution error: " e
          :: (if close_connection then [LogInfo "Database connection closed."] else [])) /\
  (forall connection update_query params close_connection (w : World) e w',
      update_records (Some connection) update_query params close_connection w = (Raise e, w') ->
      kind_of e = None /\
      (is_Some (live_session connection w) ->
       (exists w1,
           execute_and_commit connection (RawSql update_query) params w = (Raise e, w1)) /\
       logged w' =
         logged w ++ LogError "Update query execution error: " e
           :: (if close_connection then [LogInfo "Database connection closed."] else []))) /\
  (forall connection view_name view_query close_connection (w : World) e w',
      create_view (Some connection) view_name view_query close_connection w = (Raise e, w') ->
      kind_of e = None /\
      (is_Some (live_session connection w) ->
       (exists w1,
           execute_and_commit connection
             (RawSql ("CREATE OR REPLACE VIEW " +:+ view_name +:+ " AS " +:+ view_query))
             None w = (Raise e, w1)) /\
       logged w' =
         logged w ++ LogError ("Error creating view '" +:+ view_name +:+ "': ") e
           :: (if close_connection then [LogInfo "Database connection closed."] else []))) /\
  (forall connection table_name (w : World) e w',
      create_table connection table_name w = (Raise e, w') ->
      kind_of e = None /\
      (exists w1, create_table_calls connection table_name w = (Raise e, w1)) /\
      logged w' = logged w ++ [LogError "Error in creating table: " e]) /\
  (forall connection table_name dataframe (w : World) e w',
      populate_table connection table_name dataframe w = (Raise e, w') ->
      kind_of e = None /\
      (exists w1, populate_table_calls connection table_name dataframe w = (Raise e, w1)) /\
      logged w' = logged w ++ [LogError "Error in populating table: " e]) /\
  (forall connection table_name dataframe (w : World) ses col rest,
      df_columns dataframe = col :: rest ->
      live_session connection w = Some ses ->
      tx ses <> Failed ->
      (next_fault w).1 = None ->
      view_table connection table_name w = None ->
      let failure :=
        DriverError
          match identifier w col with
          | Some _ => UndefinedTable table_name
          | None => SyntaxError (sql_text (AlterTableAddColumnIfNotExists table_name col))
          end in
      exists w',
        populate_table connection table_name dataframe w = (Raise failure, w') /\
        committed w' = committed w /\
        journal w' =
          journal w ++ [CallCursor connection;
                        CallExecute connection
                          (AlterTableAddColumnIfNotExists table_name col) None] /\
        logged w' = logged w ++ [LogError "Error in populating table: " failure]).
Proof.
  split_and!.
  - intros connection query params close_connection w e w' Hcall. split.
    + exact (raises_driver_errors_kind _ _ _ _ (rde_query_database _ _ _ _) Hcall).
    + by apply query_database_reraises in Hcall.
  - intros connection update_query params close_connection w e w' Hcall. split.
    + exact (raises_driver_errors_kind _ _ _ _ (rde_update_records _ _ _ _) Hcall).
    + intros [ses Hlive]. split.
      * exact (proj1 (update_and_view_reraise _ _ _ _ Hlive) _ _ _ _ Hcall).
      * exact (proj1 (update_and_view_failure_log _ _ _ _ Hlive) _ _ _ _ Hcall).
  - intros connection view_name view_query close_connection w e w' Hcall. split.
    + exact (raises_driver_errors_kind _ _ _ _ (rde_create_view _ _ _ _) Hcall).
    + intros [ses Hlive]. split.
      * exact (proj2 (update_and_view_reraise _ _ _ _ Hlive) _ _ _ _ Hcall).
      * exact (proj2 (update_and_view_failure_log _ _ _ _ Hlive) _ _ _ _ Hcall).
  - intros connection table_name w e w' Hcall. split_and!.
    + exact (raises_driver_errors_kind _ _ _ _ (rde_create_table _ _) Hcall).
    + exact (proj1 (provisioning_reraises _ _ _) _ _ Hcall).
    + exact (proj1 (provisioning_failure_log _ _ _) _ _ Hcall).
  - intros connection table_name dataframe w e w' Hcall. split_and!.
    + exact (raises_driver_errors_kind _ _ _ _ (rde_populate_table _ _ _) Hcall).
    + exact (proj2 (provisioning_reraises _ _ _) _ _ _ Hcall).
    + exact (proj2 (provisioning_failure_log _ _ _) _ _ _ Hcall).
  - apply populate_missing_table.
Qed.

Lemma failures_are_raw_driver_errors_witness :
  let dataframe := {| df_columns := ["column1"; "column2"];
                      df_values := [["data0"; "more_data0"]] |} in
  let w := example_world ∅ [] in
  let failed := example_world ∅ [Some (SyntaxError "UPDATE t SET")] in
  let failure := DriverError (SyntaxError "UPDATE t SET") in
  (kind_of failure = None /\
   (is_Some (live_session 0 failed) ->
    (exists w1,
        execute_and_commit 0 (RawSql "UPDATE t SET") None failed = (Raise failure, w1)) /\
    logged (update_records (Some 0) "UPDATE t SET" None true failed).2 =
      logged failed ++ LogError "Update query execution error: " failure
        :: [LogInfo "Database connection closed."])) /\
  exists w',
    populate_table 0 "test_table_nonexistent" dataframe w
      = (Raise (DriverError (UndefinedTable "test_table_nonexistent")), w') /\
    committed w' = committed w /\
    journal w' =
      journal w ++ [CallCursor 0;
                    CallExecute 0
                      (AlterTableAddColumnIfNotExists "test_table_nonexistent" "column1")
                      None] /\
    logged w' =
      logged w ++ [LogError "Error in populating table: "
                            (DriverError (UndefinedTable "test_table_nonexistent"))].
Proof.
  intros dataframe w failed failure. split.
  - apply (proj1 (proj2 failures_are_raw_driver_errors) 0 "UPDATE t SET" None true
             failed failure (update_records (Some 0) "UPDATE t SET" None true failed).2).
    vm_compute; reflexivity.
  - apply (proj2 (proj2 (proj2 (proj2 (proj2 failures_are_raw_driver_errors))))
             0 "test_table_nonexistent" dataframe w
             {| closed := false; tx := Idle |} "column1" ["column2"]);
      try (vm_compute; reflexivity).
    discriminate.
Defined.
